(** * A shallow embedding of [stack.py]: a bounded stack, validated
      instructions and the fetch/dispatch loop of the stack machine.

    Python integers are unbounded, so they are modelled by [Z].  The only
    other object that can reach the value stack is [None] (the default
    [instruction_value]), so a value is an integer or [None].  Exceptions
    are results of an error monad; what the program prints on standard
    output is a list of lines kept in the machine state.  The text of a
    line is not modelled, but whether [str] can build it is: CPython
    (3.11, and the releases that took over its limit) refuses to convert
    an integer of more than 4300 digits and raises ValueError.  Messages
    sent to [logging] are not part of the model (an exception raised while
    a log record is formatted is handled inside [logging]). *)

From Stdlib Require Import ZArith List String Ascii Bool Lia.
Import ListNotations.
Open Scope Z_scope.

(** ** Values, exceptions, printed lines *)

Inductive value : Type :=
| VInt (n : Z)
| VNone.

Definition TRUE : Z := 1.
Definition FALSE : Z := 0.

Inductive exn : Type :=
| StackElementsExceedLimit          (* Exception("Stack elements exceed stack size limit") *)
| InvalidInstruction (name : string) (* Exception("Invalid instruction: ", name) *)
| UnexpectedInstructionValue        (* Exception("Unexpected instruction value given ...") *)
| TypeError                         (* arithmetic or comparison on None *)
| IndexError                        (* list index out of range *)
| DigitsValueError.                 (* ValueError: Exceeds the limit (4300 digits)
                                       for integer string conversion *)

Inductive result (A : Type) : Type :=
| Ok (a : A)
| Raise (e : exn).
Arguments Ok {A} a.
Arguments Raise {A} e.

Inductive line : Type :=
| StackFull (elem : value)              (* "The stack is full, could not push ..." *)
| Written (v : value)                   (* the line printed by write *)
| Displayed (top_to_bottom : list value). (* the picture printed by display *)

(** Python's operators on the values above. *)

Definition py_add (a b : value) : result value :=
  match a, b with
  | VInt x, VInt y => Ok (VInt (x + y))
  | _, _ => Raise TypeError
  end.

Definition py_mul (a b : value) : result value :=
  match a, b with
  | VInt x, VInt y => Ok (VInt (x * y))
  | _, _ => Raise TypeError
  end.

Definition py_eq (a b : value) : bool :=
  match a, b with
  | VInt x, VInt y => x =? y
  | VNone, VNone => true
  | _, _ => false
  end.

Definition py_lt (a b : value) : result bool :=
  match a, b with
  | VInt x, VInt y => Ok (x <? y)
  | _, _ => Raise TypeError
  end.

Definition is_None (v : value) : bool :=
  match v with VNone => true | VInt _ => false end.

(** [sys.get_int_max_str_digits()], as the interpreter sets it. *)
Definition int_max_str_digits : Z := 4300.

(** The least absolute value with more digits than that. *)
Definition str_limit : Z := 10 ^ int_max_str_digits.

(** Whether [str(v)] returns: always for None, and for an integer when it
    has at most [int_max_str_digits] digits; otherwise [str] raises
    ValueError.  Every text the program prints is built with [str]. *)
Definition printable (v : value) : bool :=
  match v with
  | VInt n => Z.abs n <? str_limit
  | VNone => true
  end.

(** [l[i]] on a Python list: a negative index counts from the end, an index
    outside [-len, len) raises IndexError. *)
Definition py_getitem {A : Type} (l : list A) (i : Z) : result A :=
  let n := Z.of_nat (List.length l) in
  let j := if i <? 0 then i + n else i in
  if (j <? 0) || (n <=? j) then Raise IndexError
  else match nth_error l (Z.to_nat j) with
       | Some x => Ok x
       | None => Raise IndexError
       end.

(** [needle in hay] on Python strings. *)
Fixpoint str_contains (needle hay : string) : bool :=
  String.prefix needle hay ||
  match hay with
  | EmptyString => false
  | String _ rest => str_contains needle rest
  end.

(** ** class Stack *)

Module Stack.

Record t : Type := mk {
  stack_elements : list value;  (* top of the stack = end of the list *)
  size_limit : Z
}.

Definition init (size_limit : Z) (elements : list value) : result t :=
  if Z.of_nat (List.length elements) >? size_limit
  then Raise StackElementsExceedLimit
  else Ok (mk elements size_limit).

Definition get_stack_elements (s : t) : list value := stack_elements s.

Definition len (s : t) : Z := Z.of_nat (List.length (stack_elements s)).

(** Returns the popped element (None when the stack is empty) and the
    stack afterwards. *)
Definition pop (s : t) : value * t :=
  if len s >? 0
  then (last (stack_elements s) VNone,
        mk (removelast (stack_elements s)) (size_limit s))
  else (VNone, s).

(** Returns the stack afterwards and what was printed.  On a full stack
    the message is built with [str(elem)] before anything else happens, so
    the ValueError of [str] leaves push with the stack as it was. *)
Definition push (s : t) (elem : value) : result (t * list line) :=
  if len s + 1 >? size_limit s
  then if printable elem
       then Ok (s, [StackFull elem])
       else Raise DigitsValueError
  else Ok (mk (stack_elements s ++ [elem]) (size_limit s), []).

(** A caller's view of the class: a sequence of method calls. *)
Inductive call : Type :=
| Push (elem : value)
| Pop.

(** The stack after a call, whether the call returned or raised: a push
    that raises has not touched the list. *)
Definition do_call (s : t) (c : call) : t :=
  match c with
  | Push elem =>
      match push s elem with
      | Ok (s', _) => s'
      | Raise _ => s
      end
  | Pop => snd (pop s)
  end.

Definition do_calls (s : t) (cs : list call) : t := fold_left do_call cs s.

End Stack.

(** ** class Instruction *)

(** The names a constructed Instruction can carry.  They live in a module
    of their own because the machine has a method of each name. *)
Module Op.
Inductive opcode : Type :=
| add | negate | equal | zero | one | loadcon | br | br_false
| dup | mpy | write | swap | less.
End Op.

Open Scope string_scope.

Definition INSTRUCTIONS : list string :=
  ["add"; "negate"; "equal"; "zero"; "one"; "loadcon"; "br"; "br_false";
   "dup"; "mpy"; "write"; "swap"; "less"].

Definition opcode_name (op : Op.opcode) : string :=
  match op with
  | Op.add => "add" | Op.negate => "negate" | Op.equal => "equal"
  | Op.zero => "zero" | Op.one => "one" | Op.loadcon => "loadcon"
  | Op.br => "br" | Op.br_false => "br_false" | Op.dup => "dup"
  | Op.mpy => "mpy" | Op.write => "write" | Op.swap => "swap"
  | Op.less => "less"
  end.

Definition all_opcodes : list Op.opcode :=
  [Op.add; Op.negate; Op.equal; Op.zero; Op.one; Op.loadcon; Op.br;
   Op.br_false; Op.dup; Op.mpy; Op.write; Op.swap; Op.less].

(** The member of INSTRUCTIONS equal to [name], as an opcode. *)
Definition opcode_of_name (name : string) : option Op.opcode :=
  find (fun op => String.eqb name (opcode_name op)) all_opcodes.

(** An Instruction object.  The constructor only returns when the name is
    a member of INSTRUCTIONS, so the stored name is kept as its opcode;
    the stored value is whatever was passed (None by default). *)
Record Instruction : Type := mkInstruction {
  instruction_name : Op.opcode;
  instruction_value : value
}.

Definition Instruction_init (name : string) (instruction_value : value)
  : result Instruction :=
  if negb (existsb (String.eqb name) INSTRUCTIONS)
  then Raise (InvalidInstruction name)
  else
    match opcode_of_name name with
    | None => Raise (InvalidInstruction name)
    | Some op =>
        if negb (str_contains "loadcon" name) && negb (is_None instruction_value)
        then Raise UnexpectedInstructionValue
        else Ok (mkInstruction op instruction_value)
    end.

Close Scope string_scope.

(** ** class StackMachine *)

Module StackMachine.

Record t : Type := mk {
  value_stack : Stack.t;
  size_limit : Z;
  instructions : list Instruction;
  program_counter : Z;      (* the address of the next machine instruction *)
  stdout : list line        (* everything printed so far, oldest first *)
}.

Definition init (instructions : list Instruction) (stack_size : Z) : result t :=
  match Stack.init stack_size [] with
  | Raise e => Raise e
  | Ok s => Ok (mk s stack_size instructions 0 [])
  end.

Definition default_stack_size : Z := 10.

Definition get_value_stack (m : t) : Stack.t := value_stack m.

(** *** Method bodies: state and exceptions threaded through the calls *)

Definition M (A : Type) : Type := t -> result (A * t).

Definition ret {A : Type} (a : A) : M A := fun m => Ok (a, m).

Definition bind {A B : Type} (c : M A) (k : A -> M B) : M B :=
  fun m => match c m with
           | Ok (a, m') => k a m'
           | Raise e => Raise e
           end.

Definition lift {A : Type} (r : result A) : M A :=
  fun m => match r with
           | Ok a => Ok (a, m)
           | Raise e => Raise e
           end.

Notation "x <- c ;; k" := (bind c (fun x => k))
  (at level 61, c at next level, right associativity).
Notation "c ;;; k" := (bind c (fun _ => k))
  (at level 61, right associativity).

Definition print (ls : list line) : M unit :=
  fun m => Ok (tt, mk (value_stack m) (size_limit m) (instructions m)
                      (program_counter m) (stdout m ++ ls)).

Definition stack_len : M Z :=
  fun m => Ok (Stack.len (value_stack m), m).

Definition stack_pop : M value :=
  fun m => let (v, s) := Stack.pop (value_stack m) in
           Ok (v, mk s (size_limit m) (instructions m)
                     (program_counter m) (stdout m)).

Definition stack_push (elem : value) : M unit :=
  fun m => match Stack.push (value_stack m) elem with
           | Ok (s, printed) =>
               Ok (tt, mk s (size_limit m) (instructions m)
                          (program_counter m) (stdout m ++ printed))
           | Raise e => Raise e
           end.

Definition get_program_counter : M Z :=
  fun m => Ok (program_counter m, m).

Definition set_program_counter (pc : Z) : M unit :=
  fun m => Ok (tt, mk (value_stack m) (size_limit m) (instructions m)
                      pc (stdout m)).

(** [self._program_counter += v] *)
Definition add_to_program_counter (v : value) : M unit :=
  pc <- get_program_counter ;;
  match py_add (VInt pc) v with
  | Ok (VInt pc') => set_program_counter pc'
  | Ok VNone => fun _ => Raise TypeError
  | Raise e => fun _ => Raise e
  end.

(** The picture is put together, top first, with [str] of each element,
    and printed at the end: one element [str] refuses and nothing is
    printed. *)
Definition display : M unit :=
  fun m =>
    let top_to_bottom := rev (Stack.get_stack_elements (value_stack m)) in
    if forallb printable top_to_bottom
    then print [Displayed top_to_bottom] m
    else Raise DigitsValueError.

Definition loadcon (v : value) : M unit := stack_push v.

Definition br : M unit :=
  n <- stack_len ;;
  if n <? 1 then ret tt else
  offset_index <- stack_pop ;;
  add_to_program_counter offset_index.

Definition br_false : M unit :=
  n <- stack_len ;;
  if n <? 2 then ret tt else
  offset_index <- stack_pop ;;
  check_condition <- stack_pop ;;
  if negb (py_eq check_condition (VInt TRUE))
  then add_to_program_counter offset_index
  else ret tt.

Definition add : M unit :=
  n <- stack_len ;;
  if n <? 2 then ret tt else
  value_1 <- stack_pop ;;
  value_2 <- stack_pop ;;
  r <- lift (py_add value_1 value_2) ;;
  stack_push r.

Definition negate : M unit :=
  n <- stack_len ;;
  if n <? 1 then ret tt else
  popped <- stack_pop ;;
  value_1 <- lift (py_mul popped (VInt (-1))) ;;
  stack_push value_1.

Definition equal : M unit :=
  n <- stack_len ;;
  if n <? 2 then ret tt else
  value_1 <- stack_pop ;;
  value_2 <- stack_pop ;;
  if py_eq value_1 value_2
  then stack_push (VInt TRUE)
  else stack_push (VInt FALSE).

Definition less : M unit :=
  n <- stack_len ;;
  if n <? 2 then ret tt else
  top <- stack_pop ;;
  second_top <- stack_pop ;;
  b <- lift (py_lt second_top top) ;;
  if b then stack_push (VInt TRUE) else stack_push (VInt FALSE).

Definition swap : M unit :=
  n <- stack_len ;;
  if n <? 2 then ret tt else
  value_1 <- stack_pop ;;
  value_2 <- stack_pop ;;
  stack_push value_1 ;;;
  stack_push value_2.

Definition mpy : M unit :=
  n <- stack_len ;;
  if n <? 2 then ret tt else
  value_1 <- stack_pop ;;
  value_2 <- stack_pop ;;
  r <- lift (py_mul value_1 value_2) ;;
  stack_push r.

Definition zero : M unit := stack_push (VInt 0).

Definition one : M unit := stack_push (VInt 1).

Definition write : M unit :=
  n <- stack_len ;;
  if n <? 1 then ret tt else
  v <- stack_pop ;;
  if printable v then print [Written v] else fun _ => Raise DigitsValueError.

Definition dup : M unit :=
  n <- stack_len ;;
  if n <? 1 then ret tt else
  v <- stack_pop ;;
  stack_push v ;;;
  stack_push v.

(** [getattr(self, name)] followed by the call, with the instruction's
    value as argument for loadcon only. *)
Definition call_method (current_instruction : Instruction) : M unit :=
  match instruction_name current_instruction with
  | Op.loadcon => loadcon (instruction_value current_instruction)
  | Op.add => add
  | Op.negate => negate
  | Op.equal => equal
  | Op.zero => zero
  | Op.one => one
  | Op.br => br
  | Op.br_false => br_false
  | Op.dup => dup
  | Op.mpy => mpy
  | Op.write => write
  | Op.swap => swap
  | Op.less => less
  end.

(** The head of the loop in [run]: [None] is the [break]. *)
Definition fetch : M (option Instruction) :=
  pc <- get_program_counter ;;
  fun m =>
    if negb (pc >? Z.of_nat (List.length (instructions m)) - 1)
    then match py_getitem (instructions m) pc with
         | Ok i => Ok (Some i, m)
         | Raise e => Raise e
         end
    else Ok (None, m).

(** What one pass through the loop does with the fetched instruction. *)
Definition execute (current_instruction : Instruction) : M unit :=
  call_method current_instruction ;;;
  display ;;;
  pc <- get_program_counter ;;
  set_program_counter (pc + 1).

(** One pass through the [while True] loop: [None] when it breaks. *)
Definition iteration (m : t) : result (option t) :=
  match fetch m with
  | Raise e => Raise e
  | Ok (None, _) => Ok None
  | Ok (Some current_instruction, m') =>
      match execute current_instruction m' with
      | Raise e => Raise e
      | Ok (_, m'') => Ok (Some m'')
      end
  end.

Inductive outcome : Type :=
| Finished (m : t)      (* the loop was left by break *)
| Raised (e : exn)      (* an exception left run *)
| StillRunning (m : t). (* the bound on the number of passes was reached *)

(** [run], with a bound on the number of passes through the loop. *)
Fixpoint run (passes : nat) (m : t) : outcome :=
  match passes with
  | O => StillRunning m
  | S passes' =>
      match iteration m with
      | Raise e => Raised e
      | Ok None => Finished m
      | Ok (Some m') => run passes' m'
      end
  end.

(** The stack length below which a method returns at once, read off the
    test at the head of each method; 0 for the methods without a test. *)
Definition required_size (op : Op.opcode) : Z :=
  match op with
  | Op.loadcon | Op.zero | Op.one => 0
  | Op.dup | Op.negate | Op.write | Op.br => 1
  | Op.swap | Op.add | Op.mpy | Op.equal | Op.less | Op.br_false => 2
  end.

(** The machine after [display] and the increment that close a pass. *)
Definition close_pass (m : t) : t :=
  mk (value_stack m) (size_limit m) (instructions m)
     (program_counter m + 1)
     (stdout m ++ [Displayed (rev (Stack.stack_elements (value_stack m)))]).

(** Whether [display] can print the stack. *)
Definition printable_stack (s : Stack.t) : bool :=
  forallb printable (Stack.stack_elements s).

(** How a pass ends once the method has returned with machine m: with
    [close_pass m], unless [display] raises. *)
Definition end_of_pass (m : t) : result (option t) :=
  if printable_stack (value_stack m)
  then Ok (Some (close_pass m))
  else Raise DigitsValueError.

(** The values printed by write, in order. *)
Fixpoint written (out : list line) : list value :=
  match out with
  | [] => []
  | Written v :: out' => v :: written out'
  | _ :: out' => written out'
  end.

End StackMachine.

(** ** Programs and what a run prints *)

(** A run of [program] on a new machine with the given stack size leaves
    the loop, the values printed by write being exactly [values]. *)
Definition run_writes (program : list Instruction) (stack_size : Z)
  (values : list value) : Prop :=
  exists (m0 : StackMachine.t) (passes : nat) (m : StackMachine.t),
    StackMachine.init program stack_size = Ok m0
    /\ StackMachine.run passes m0 = StackMachine.Finished m
    /\ StackMachine.written (StackMachine.stdout m) = values.

(** [loadcon 1, loadcon 2, br, write, write] *)
Definition skip_program : list Instruction :=
  [mkInstruction Op.loadcon (VInt 1); mkInstruction Op.loadcon (VInt 2);
   mkInstruction Op.br VNone; mkInstruction Op.write VNone;
   mkInstruction Op.write VNone].

(** [loadcon -4, br]: the branch leaves the program counter at -2. *)
Definition backward_program : list Instruction :=
  [mkInstruction Op.loadcon (VInt (-4)); mkInstruction Op.br VNone].

(** ** The getters of Instruction, and convert_list_to_instructions *)

Definition get_instruction_name (i : Instruction) : string :=
  opcode_name (instruction_name i).

Definition get_instruction_value (i : Instruction) : value :=
  instruction_value i.

(** [s.split(" ")]: the pieces of s between its spaces, of which there is
    always at least one; two spaces in a row give an empty piece. *)
Fixpoint split_space (s : string) : list string :=
  match s with
  | EmptyString => [EmptyString]
  | String ch rest =>
      if Ascii.eqb ch " "%char
      then EmptyString :: split_space rest
      else match split_space rest with
           | piece :: pieces => String ch piece :: pieces
           | [] => [String ch EmptyString]
           end
  end.

(** The number of spaces in s. *)
Fixpoint spaces (s : string) : nat :=
  match s with
  | EmptyString => O
  | String ch rest => if Ascii.eqb ch " "%char then S (spaces rest) else spaces rest
  end.

(** How a conversion ends: with its result, with an exception of the
    constructor of Instruction, or with the ValueError of [int]. *)
Inductive conversion (A : Type) : Type :=
| Converted (a : A)
| Refused (e : exn)
| ValueError (literal : string).
Arguments Converted {A} a.
Arguments Refused {A} e.
Arguments ValueError {A} literal.

(** The body of the loop of convert_list_to_instructions for one entry.
    The two built-in functions it calls are arguments: [lower] is
    [str.lower], and [int] is [int] on a string, None standing for its
    ValueError. *)
Definition convert_entry (lower : string -> string) (int : string -> option Z)
  (instruction : string) : conversion Instruction :=
  match split_space instruction with
  | [first; second] =>
      let instruction_name := lower first in
      match int second with
      | None => ValueError second
      | Some instruction_value =>
          match Instruction_init instruction_name (VInt instruction_value) with
          | Ok i => Converted i
          | Raise e => Refused e
          end
      end
  | _ =>
      match Instruction_init (lower instruction) VNone with
      | Ok i => Converted i
      | Raise e => Refused e
      end
  end.

Fixpoint convert_list_to_instructions (lower : string -> string)
  (int : string -> option Z) (instructions : list string)
  : conversion (list Instruction) :=
  match instructions with
  | [] => Converted []
  | instruction :: rest =>
      match convert_entry lower int instruction with
      | Converted i =>
          match convert_list_to_instructions lower int rest with
          | Converted conv_instructions => Converted (i :: conv_instructions)
          | Refused e => Refused e
          | ValueError literal => ValueError literal
          end
      | Refused e => Refused e
      | ValueError literal => ValueError literal
      end
  end.

(** [Instruction.__repr__]: the name, followed by a space and the value
    unless [not value] holds, which it does for None and for 0.  [str] is
    the text Python gives for an integer. *)
Definition Instruction_repr (str : Z -> string) (i : Instruction) : string :=
  let value :=
    match instruction_value i with
    | VNone => EmptyString
    | VInt n => if n =? 0 then EmptyString else append " " (str n)
    end in
  append (get_instruction_name i) value.

(** What convert_list_to_instructions makes of an entry that it accepts:
    from an entry with exactly one space a loadcon with an integer, from
    any other entry an instruction without a value. *)
Definition made_from (instruction : string) (i : Instruction) : Prop :=
  (spaces instruction = 1%nat
   /\ instruction_name i = Op.loadcon
   /\ exists n : Z, instruction_value i = VInt n)
  \/ (spaces instruction <> 1%nat /\ instruction_value i = VNone).

(** ** Notions used to state what a run keeps and when it ends *)

(** What holds between a machine and the same machine later in a run: the
    program and the limits are the same, a stack within its limit is still
    within it, and what was printed has only been added to. *)
Definition carried_over (m m' : StackMachine.t) : Prop :=
  StackMachine.instructions m' = StackMachine.instructions m
  /\ StackMachine.size_limit m' = StackMachine.size_limit m
  /\ Stack.size_limit (StackMachine.value_stack m')
     = Stack.size_limit (StackMachine.value_stack m)
  /\ (Stack.len (StackMachine.value_stack m)
      <= Stack.size_limit (StackMachine.value_stack m) ->
      Stack.len (StackMachine.value_stack m')
      <= Stack.size_limit (StackMachine.value_stack m'))
  /\ exists printed : list line,
       StackMachine.stdout m' = StackMachine.stdout m ++ printed.

(** A computation that, when it returns, returns a machine carried over
    from the one it started on. *)
Definition carries_over {A : Type} (c : StackMachine.M A) : Prop :=
  forall (m : StackMachine.t) (a : A) (m' : StackMachine.t),
    c m = Ok (a, m') -> carried_over m m'.

Definition is_branch (op : Op.opcode) : bool :=
  match op with
  | Op.br | Op.br_false => true
  | _ => false
  end.

(** The instruction is no branch, and if it is a loadcon its value is an
    integer (not None). *)
Definition plain_instruction (i : Instruction) : bool :=
  negb (is_branch (instruction_name i))
  && match instruction_name i with
     | Op.loadcon => negb (is_None (instruction_value i))
     | _ => true
     end.

(** If the instruction is a loadcon, its value is an integer (not None). *)
Definition carries_integer (i : Instruction) : bool :=
  match instruction_name i with
  | Op.loadcon => negb (is_None (instruction_value i))
  | _ => true
  end.

(** A program whose loadcons all carry integers; branches are allowed. *)
Definition integer_program (program : list Instruction) : bool :=
  forallb carries_integer program.


Definition integers_only (l : list value) : bool :=
  forallb (fun v => negb (is_None v)) l.

(** add and mpy are the methods whose result can have more digits than
    the values they take. *)
Definition lengthens (op : Op.opcode) : bool :=
  match op with
  | Op.add | Op.mpy => true
  | _ => false
  end.

(** The instruction is neither add nor mpy, and [str] can print its
    value. *)
Definition short_instruction (i : Instruction) : bool :=
  negb (lengthens (instruction_name i)) && printable (instruction_value i).


(** The program in the comment of [main], for the number n:
    [loadcon n, dup, zero, less, loadcon 3, br_false, one, negate, mpy,
    write]. *)
Definition absolute_fn (n : Z) : list Instruction :=
  [mkInstruction Op.loadcon (VInt n); mkInstruction Op.dup VNone;
   mkInstruction Op.zero VNone; mkInstruction Op.less VNone;
   mkInstruction Op.loadcon (VInt 3); mkInstruction Op.br_false VNone;
   mkInstruction Op.one VNone; mkInstruction Op.negate VNone;
   mkInstruction Op.mpy VNone; mkInstruction Op.write VNone].

(** [loadcon -2, br]: the branch goes back to the loadcon. *)
Definition loop_program : list Instruction :=
  [mkInstruction Op.loadcon (VInt (-2)); mkInstruction Op.br VNone].

(** * Properties *)

(** ** What [str] can print *)



Lemma printable_opp (n : Z) : printable (VInt (- n)) = printable (VInt n).
Proof. unfold printable. rewrite Z.abs_opp. reflexivity. Qed.

Lemma printable_bounded (n b : Z) :
  Z.abs n <= Z.abs b -> printable (VInt b) = true -> printable (VInt n) = true.
Proof.
  unfold printable. intros Hle Hb. apply Z.ltb_lt in Hb. apply Z.ltb_lt. lia.
Qed.

(** The limit is only compared with, never written out. *)
Opaque str_limit.

Lemma printable_stack_app (l1 l2 : list value) (c : Z) :
  StackMachine.printable_stack (Stack.mk (l1 ++ l2) c)
  = StackMachine.printable_stack (Stack.mk l1 c)
    && StackMachine.printable_stack (Stack.mk l2 c).
Proof. unfold StackMachine.printable_stack. simpl. apply forallb_app. Qed.

Lemma forallb_rev {A : Type} (f : A -> bool) (l : list A) :
  forallb f (rev l) = forallb f l.
Proof.
  induction l as [|x l IH]; [reflexivity|]. simpl.
  rewrite forallb_app, IH. simpl. rewrite andb_true_r. apply andb_comm.
Qed.

(** ** The bounded stack *)

Lemma len_nonneg (s : Stack.t) : 0 <= Stack.len s.
Proof. unfold Stack.len. lia. Qed.

Lemma push_room (s : Stack.t) (elem : value) :
  Stack.len s + 1 <= Stack.size_limit s ->
  Stack.push s elem =
    Ok (Stack.mk (Stack.stack_elements s ++ [elem]) (Stack.size_limit s), []).
Proof.
  intros Hroom. unfold Stack.push.
  destruct (Z.gtb_spec (Stack.len s + 1) (Stack.size_limit s)); [lia | reflexivity].
Qed.

Lemma push_full (s : Stack.t) (elem : value) :
  Stack.size_limit s < Stack.len s + 1 ->
  Stack.push s elem =
    if printable elem then Ok (s, [StackFull elem]) else Raise DigitsValueError.
Proof.
  intros Hfull. unfold Stack.push.
  destruct (Z.gtb_spec (Stack.len s + 1) (Stack.size_limit s)); [reflexivity | lia].
Qed.

Lemma pop_nonempty (s : Stack.t) :
  1 <= Stack.len s ->
  Stack.pop s =
    (last (Stack.stack_elements s) VNone,
     Stack.mk (removelast (Stack.stack_elements s)) (Stack.size_limit s)).
Proof.
  intros Hlen. unfold Stack.pop.
  destruct (Z.gtb_spec (Stack.len s) 0); [reflexivity | lia].
Qed.

Lemma pop_empty (s : Stack.t) :
  Stack.len s = 0 -> Stack.pop s = (VNone, s).
Proof.
  intros Hlen. unfold Stack.pop. rewrite Hlen. reflexivity.
Qed.

Lemma length_removelast {A : Type} (l : list A) :
  l <> [] -> S (List.length (removelast l)) = List.length l.
Proof.
  intros Hne. destruct l as [|x l]; [congruence|].
  rewrite (app_removelast_last x Hne) at 2.
  rewrite length_app. simpl. lia.
Qed.

Lemma len_pop (s : Stack.t) :
  1 <= Stack.len s -> Stack.len (snd (Stack.pop s)) = Stack.len s - 1.
Proof.
  intros Hlen. rewrite pop_nonempty by exact Hlen.
  unfold Stack.len in *. simpl.
  destruct (Stack.stack_elements s) as [|x l] eqn:E; [simpl in Hlen; lia|].
  assert (Hl := @length_removelast value (x :: l)).
  rewrite <- Hl by discriminate. lia.
Qed.

Lemma limit_pop (s : Stack.t) :
  Stack.size_limit (snd (Stack.pop s)) = Stack.size_limit s.
Proof.
  unfold Stack.pop. destruct (Stack.len s >? 0); reflexivity.
Qed.

Lemma limit_push (s : Stack.t) (elem : value) :
  Stack.size_limit (Stack.do_call s (Stack.Push elem)) = Stack.size_limit s.
Proof.
  unfold Stack.do_call, Stack.push.
  destruct (Stack.len s + 1 >? Stack.size_limit s); [|reflexivity].
  destruct (printable elem); reflexivity.
Qed.

(** Each method call keeps the stack within its limit. *)
Lemma do_call_bounded (s : Stack.t) (c : Stack.call) :
  Stack.len s <= Stack.size_limit s ->
  Stack.len (Stack.do_call s c) <= Stack.size_limit (Stack.do_call s c)
  /\ Stack.size_limit (Stack.do_call s c) = Stack.size_limit s.
Proof.
  intros Hinv. destruct c as [elem|].
  - rewrite limit_push. split; [|reflexivity]. unfold Stack.do_call.
    destruct (Z_le_gt_dec (Stack.len s + 1) (Stack.size_limit s)) as [Hroom|Hfull].
    + rewrite push_room by exact Hroom. unfold Stack.len in *. simpl.
      rewrite length_app. simpl. lia.
    + rewrite push_full by lia. destruct (printable elem); exact Hinv.
  - simpl. rewrite limit_pop. split; [|reflexivity].
    destruct (Z_le_gt_dec 1 (Stack.len s)) as [Hne|He].
    + rewrite len_pop by exact Hne. lia.
    + rewrite pop_empty by (pose proof (len_nonneg s); lia). exact Hinv.
Qed.


Lemma init_inv (cap : Z) (elements : list value) (s : Stack.t) :
  Stack.init cap elements = Ok s ->
  Stack.stack_elements s = elements /\ Stack.size_limit s = cap
  /\ Stack.len s <= cap.
Proof.
  unfold Stack.init.
  destruct (Z.gtb_spec (Z.of_nat (List.length elements)) cap) as [Hgt|Hle];
    [discriminate|].
  intros H. injection H as <-. unfold Stack.len. simpl. auto.
Qed.





(** ** Construction of instructions *)

Open Scope string_scope.

Lemma INSTRUCTIONS_spec (name : string) :
  In name INSTRUCTIONS <-> existsb (String.eqb name) INSTRUCTIONS = true.
Proof.
  rewrite existsb_exists. split.
  - intros Hin. exists name. split; [exact Hin | apply String.eqb_refl].
  - intros (x & Hin & Heq). apply String.eqb_eq in Heq. subst x. exact Hin.
Qed.

Lemma thirteen_opcodes :
  List.length INSTRUCTIONS = 13%nat /\ NoDup INSTRUCTIONS
  /\ INSTRUCTIONS = map opcode_name all_opcodes.
Proof.
  split; [reflexivity|]. split; [|reflexivity].
  unfold INSTRUCTIONS.
  repeat (constructor; [simpl; intuition discriminate|]). constructor.
Qed.

(** Every member of INSTRUCTIONS has its opcode, so the constructor's
    membership test is the only way a name is found invalid. *)
Lemma opcode_of_member (name : string) :
  In name INSTRUCTIONS ->
  exists op : Op.opcode, opcode_of_name name = Some op /\ opcode_name op = name.
Proof.
  intros Hin. unfold INSTRUCTIONS in Hin. simpl in Hin.
  repeat (destruct Hin as [<- | Hin];
          [eexists; split; [reflexivity | reflexivity]|]).
  contradiction.
Qed.

(** Every member of INSTRUCTIONS other than loadcon is refused when it
    comes with a value. *)
Lemma value_refused (name : string) (n : Z) :
  In name INSTRUCTIONS -> name <> "loadcon" ->
  Instruction_init name (VInt n) = Raise UnexpectedInstructionValue.
Proof.
  intros Hin Hne. unfold INSTRUCTIONS in Hin. simpl in Hin.
  repeat (destruct Hin as [<- | Hin]; [first [reflexivity | congruence]|]).
  contradiction.
Qed.

(** C8: a name outside the thirteen-element set INSTRUCTIONS is refused by
    the constructor with the invalid-instruction exception, whatever value
    comes with it; a member of the set other than loadcon that comes with a
    value (not None) is refused with the unexpected-value exception; and in
    any case a name other than loadcon with a value never yields an
    Instruction, so nothing is left to fail when the program runs. *)
Theorem C8_construction_errors :
  List.length INSTRUCTIONS = 13%nat
  /\ (forall (name : string) (v : value),
         ~ In name INSTRUCTIONS ->
         Instruction_init name v = Raise (InvalidInstruction name))
  /\ (forall (name : string) (v : value),
         In name INSTRUCTIONS -> name <> "loadcon" -> v <> VNone ->
         Instruction_init name v = Raise UnexpectedInstructionValue)
  /\ (forall (name : string) (v : value),
         name <> "loadcon" -> v <> VNone ->
         exists e : exn, Instruction_init name v = Raise e).
Proof.
  split; [reflexivity|]. split; [|split].
  - intros name v Hnot. unfold Instruction_init.
    destruct (existsb (String.eqb name) INSTRUCTIONS) eqn:E; [|reflexivity].
    exfalso. apply Hnot. apply INSTRUCTIONS_spec. exact E.
  - intros name v Hin Hne Hv. destruct v as [n|]; [|congruence].
    apply value_refused; assumption.
  - intros name v Hne Hv. destruct v as [n|]; [|congruence].
    destruct (existsb (String.eqb name) INSTRUCTIONS) eqn:E.
    + exists UnexpectedInstructionValue. apply value_refused; [|exact Hne].
      apply INSTRUCTIONS_spec. exact E.
    + exists (InvalidInstruction name). unfold Instruction_init.
      rewrite E. reflexivity.
Qed.

Lemma C8_construction_errors_witness :
  Instruction_init "foo" VNone = Raise (InvalidInstruction "foo")
  /\ Instruction_init "add" (VInt 3) = Raise UnexpectedInstructionValue
  /\ exists e : exn, Instruction_init "foo" (VInt 3) = Raise e.
Proof.
  destruct C8_construction_errors as (_ & Hinvalid & Hvalue & Hnever).
  split; [|split].
  - apply (Hinvalid "foo" VNone). simpl. intuition discriminate.
  - apply (Hvalue "add" (VInt 3)).
    + simpl. auto.
    + discriminate.
    + discriminate.
  - apply (Hnever "foo" (VInt 3)); discriminate.
Defined.

(** C3 (fails on the code): the constructor has no test for a loadcon that
    comes without a value.  [Instruction("loadcon")] returns an Instruction
    whose value is None; the machine runs it and pushes None, and a
    following negate then raises TypeError. *)
Theorem C3_loadcon_without_value_is_accepted :
  Instruction_init "loadcon" VNone = Ok (mkInstruction Op.loadcon VNone)
  /\ (exists m0 m : StackMachine.t,
         StackMachine.init [mkInstruction Op.loadcon VNone] 10 = Ok m0
         /\ StackMachine.run 2 m0 = StackMachine.Finished m
         /\ Stack.stack_elements (StackMachine.value_stack m) = [VNone])
  /\ (exists m0 : StackMachine.t,
         StackMachine.init
           [mkInstruction Op.loadcon VNone; mkInstruction Op.negate VNone] 10
         = Ok m0
         /\ StackMachine.run 2 m0 = StackMachine.Raised TypeError).
Proof.
  split; [reflexivity|]. split.
  - eexists. eexists. split; [reflexivity|]. split; reflexivity.
  - eexists. split; reflexivity.
Qed.

Close Scope string_scope.

(** ** The machine *)

Section Machine.

Import StackMachine.

Lemma display_eq (m : t) :
  display m =
    if printable_stack (value_stack m)
    then Ok (tt, mk (value_stack m) (size_limit m) (instructions m)
                    (program_counter m)
                    (stdout m
                     ++ [Displayed (rev (Stack.stack_elements (value_stack m)))]))
    else Raise DigitsValueError.
Proof.
  unfold display, printable_stack, Stack.get_stack_elements, print. cbv zeta.
  rewrite forallb_rev. reflexivity.
Qed.

Lemma execute_eq (i : Instruction) (m : t) :
  execute i m =
    match call_method i m with
    | Ok (_, m') =>
        if printable_stack (value_stack m')
        then Ok (tt, close_pass m')
        else Raise DigitsValueError
    | Raise e => Raise e
    end.
Proof.
  unfold execute, bind. destruct (call_method i m) as [[u m']|e]; [|reflexivity].
  rewrite display_eq. destruct (printable_stack (value_stack m')); reflexivity.
Qed.

Lemma iteration_fetched (i : Instruction) (m : t) :
  fetch m = Ok (Some i, m) ->
  iteration m =
    match call_method i m with
    | Ok (_, m') => end_of_pass m'
    | Raise e => Raise e
    end.
Proof.
  intros Hfetch. unfold iteration, end_of_pass. rewrite Hfetch, execute_eq.
  destruct (call_method i m) as [[u m']|e]; [|reflexivity].
  destruct (printable_stack (value_stack m')); reflexivity.
Qed.

Lemma end_of_pass_ok (m : t) :
  printable_stack (value_stack m) = true ->
  end_of_pass m = Ok (Some (close_pass m)).
Proof. intros H. unfold end_of_pass. rewrite H. reflexivity. Qed.

(** A fetch never changes the machine. *)
Lemma fetch_same (m m' : t) (oi : option Instruction) :
  fetch m = Ok (oi, m') -> m' = m.
Proof.
  unfold fetch, bind, get_program_counter.
  destruct (negb _); [destruct (py_getitem _ _)|]; intros H;
    try discriminate; injection H as _ <-; reflexivity.
Qed.

(** *** The stack at the head of the loop *)

(** A pass that ends has displayed the stack it leaves. *)
Lemma iteration_leaves_printable (m m' : t) :
  iteration m = Ok (Some m') -> printable_stack (value_stack m') = true.
Proof.
  unfold iteration. intros H.
  destruct (fetch m) as [[[i|] m1]|e] eqn:Hfetch; try discriminate.
  pose proof (fetch_same _ _ _ Hfetch) as ->.
  rewrite execute_eq in H.
  destruct (call_method i m) as [[u m2]|e]; [|discriminate].
  destruct (printable_stack (value_stack m2)) eqn:Hshown; [|discriminate].
  injection H as <-. exact Hshown.
Qed.

Lemma run_keeps_printable (passes : nat) :
  forall m0 m : t,
    printable_stack (value_stack m0) = true ->
    run passes m0 = StillRunning m ->
    printable_stack (value_stack m) = true.
Proof.
  induction passes as [|passes IH]; intros m0 m H0 Hrun.
  - injection Hrun as <-. exact H0.
  - simpl in Hrun. destruct (iteration m0) as [[m1|]|e] eqn:Hit; try discriminate.
    exact (IH m1 m (iteration_leaves_printable _ _ Hit) Hrun).
Qed.

(** Whenever a pass of a run begins, every value on the stack is one that
    [str] can print: the stack is empty at first, and afterwards it is the
    stack that the display of the pass before has printed. *)
Lemma pass_begins_printable (program : list Instruction) (stack_size : Z)
  (m0 m : t) (passes : nat) :
  init program stack_size = Ok m0 ->
  run passes m0 = StillRunning m ->
  printable_stack (value_stack m) = true.
Proof.
  intros Hinit. apply run_keeps_printable.
  unfold init in Hinit.
  destruct (Stack.init stack_size []) as [s|e] eqn:Hstack; [|discriminate].
  injection Hinit as <-. simpl.
  destruct (init_inv _ _ _ Hstack) as (Hels & _).
  unfold printable_stack. rewrite Hels. reflexivity.
Qed.

Lemma printable_after_pop (s : Stack.t) :
  printable_stack s = true ->
  printable_stack (snd (Stack.pop s)) = true
  /\ printable (fst (Stack.pop s)) = true.
Proof.
  intros Hs. unfold Stack.pop. destruct (Stack.len s >? 0); [|auto].
  simpl. unfold printable_stack in *. simpl.
  destruct (Stack.stack_elements s) as [|x l] eqn:E; [auto|].
  assert (Hne : x :: l <> []) by discriminate.
  rewrite (app_removelast_last VNone Hne), forallb_app in Hs.
  apply andb_true_iff in Hs. destruct Hs as [Hrest Hlast].
  simpl in Hlast. rewrite andb_true_r in Hlast. split; assumption.
Qed.

(** Past the last instruction the loop breaks, and [run] returns. *)
Lemma run_off_the_end (m : t) :
  Z.of_nat (List.length (instructions m)) <= program_counter m ->
  iteration m = Ok None /\ forall passes, run (S passes) m = Finished m.
Proof.
  intros Hpc.
  assert (Hit : iteration m = Ok None).
  { unfold iteration, fetch, bind, get_program_counter.
    destruct (Z.gtb_spec (program_counter m)
                (Z.of_nat (List.length (instructions m)) - 1));
      [reflexivity | lia]. }
  split; [exact Hit|]. intros passes. simpl. rewrite Hit. reflexivity.
Qed.

Lemma underflow_returns (i : Instruction) (m : t) :
  Stack.len (value_stack m) < required_size (instruction_name i) ->
  call_method i m = Ok (tt, m).
Proof.
  intros Hlen. pose proof (len_nonneg (value_stack m)) as Hnn.
  destruct i as [op v]. unfold call_method.
  destruct op; simpl in Hlen |- *; try lia;
    unfold dup, swap, negate, add, mpy, equal, less, write, br, br_false,
      bind, stack_len;
    rewrite (proj2 (Z.ltb_lt _ _) Hlen); reflexivity.
Qed.

(** C5: when the instruction fetched has more required elements than the
    stack holds, the pass through the loop, in any state in which a pass of
    a run begins, raises nothing, and afterwards the stack is the same and
    the program counter is one more (the pass only prints the picture of
    the stack).  In a state given from outside the pass does the same,
    unless the stack holds an integer of more than 4300 digits, which
    makes the display raise.  The opcodes that require anything are
    exactly dup, swap, negate, add, mpy, equal, less, write, br and
    br_false. *)
Theorem C5_underflow_is_a_noop (m : t) (i : Instruction) :
  fetch m = Ok (Some i, m) ->
  Stack.len (value_stack m) < required_size (instruction_name i) ->
  (forall (program : list Instruction) (stack_size : Z) (m0 : t)
          (passes : nat),
      init program stack_size = Ok m0 ->
      run passes m0 = StillRunning m ->
      iteration m = Ok (Some (close_pass m)))
  /\ iteration m =
       (if printable_stack (value_stack m)
        then Ok (Some (close_pass m))
        else Raise DigitsValueError)
  /\ value_stack (close_pass m) = value_stack m
  /\ program_counter (close_pass m) = program_counter m + 1
  /\ In (instruction_name i)
       [Op.dup; Op.swap; Op.negate; Op.add; Op.mpy; Op.equal; Op.less;
        Op.write; Op.br; Op.br_false]
  /\ forall op : Op.opcode,
       In op [Op.dup; Op.swap; Op.negate; Op.add; Op.mpy; Op.equal; Op.less;
              Op.write; Op.br; Op.br_false]
       -> 0 < required_size op.
Proof.
  intros Hfetch Hlen.
  assert (Hit : iteration m = end_of_pass m).
  { rewrite (iteration_fetched i m Hfetch), underflow_returns by exact Hlen.
    reflexivity. }
  split; [|split; [exact Hit|split; [reflexivity|split; [reflexivity|split]]]].
  - intros program stack_size m0 passes Hinit Hrun. rewrite Hit.
    apply end_of_pass_ok.
    exact (pass_begins_printable program stack_size m0 m passes Hinit Hrun).
  - pose proof (len_nonneg (value_stack m)) as Hnn.
    destruct i as [[] v]; simpl in Hlen |- *; try lia; tauto.
  - intros op Hin. simpl in Hin.
    repeat (destruct Hin as [<- | Hin]; [simpl; lia|]). contradiction.
Qed.

(** What br does on a stack that is not empty. *)
Lemma br_pops (m : t) :
  1 <= Stack.len (value_stack m) ->
  br m =
    add_to_program_counter (fst (Stack.pop (value_stack m)))
      (mk (snd (Stack.pop (value_stack m))) (size_limit m) (instructions m)
          (program_counter m) (stdout m)).
Proof.
  intros Hlen. unfold br, bind, stack_len, stack_pop.
  destruct (Z.ltb_spec (Stack.len (value_stack m)) 1); [lia|].
  destruct (Stack.pop (value_stack m)) as [v s]. reflexivity.
Qed.

(** What br_false does on a stack of two elements or more. *)
Lemma br_false_pops (m : t) :
  2 <= Stack.len (value_stack m) ->
  let offset_index := fst (Stack.pop (value_stack m)) in
  let rest := snd (Stack.pop (value_stack m)) in
  let check_condition := fst (Stack.pop rest) in
  let m' := mk (snd (Stack.pop rest)) (size_limit m) (instructions m)
              (program_counter m) (stdout m) in
  br_false m =
    if negb (py_eq check_condition (VInt TRUE))
    then add_to_program_counter offset_index m'
    else Ok (tt, m').
Proof.
  intros Hlen. unfold br_false, bind, stack_len, stack_pop.
  destruct (Z.ltb_spec (Stack.len (value_stack m)) 2); [lia|].
  destruct (Stack.pop (value_stack m)) as [v s]. simpl.
  destruct (Stack.pop s) as [c s']. simpl.
  destruct (negb (py_eq c (VInt TRUE))); reflexivity.
Qed.

Lemma add_int_to_program_counter (m : t) (k : Z) :
  add_to_program_counter (VInt k) m =
    Ok (tt, mk (value_stack m) (size_limit m) (instructions m)
               (program_counter m + k) (stdout m)).
Proof. reflexivity. Qed.

(** C4: a pass through the loop that fetches br, on a stack with at least
    one element whose top is the integer k, in any state in which a pass of
    a run begins, raises nothing, and afterwards the program counter is the
    one before plus k plus 1; the stack has lost its top.  In a state given
    from outside the pass does the same, unless what is left of the stack
    holds an integer of more than 4300 digits, which makes the display
    raise. *)
Theorem C4_br_moves_by_offset_plus_one (m : t) (i : Instruction) (k : Z) :
  fetch m = Ok (Some i, m) ->
  instruction_name i = Op.br ->
  1 <= Stack.len (value_stack m) ->
  fst (Stack.pop (value_stack m)) = VInt k ->
  exists m' : t,
    (forall (program : list Instruction) (stack_size : Z) (m0 : t)
            (passes : nat),
        init program stack_size = Ok m0 ->
        run passes m0 = StillRunning m ->
        iteration m = Ok (Some m'))
    /\ iteration m =
         (if printable_stack (snd (Stack.pop (value_stack m)))
          then Ok (Some m')
          else Raise DigitsValueError)
    /\ program_counter m' = program_counter m + k + 1
    /\ value_stack m' = snd (Stack.pop (value_stack m)).
Proof.
  intros Hfetch Hname Hlen Hpop.
  rewrite (iteration_fetched i m Hfetch). unfold call_method. rewrite Hname.
  rewrite br_pops by exact Hlen. rewrite Hpop, add_int_to_program_counter.
  eexists. split; [|split; [reflexivity|]].
  - intros program stack_size m0 passes Hinit Hrun. apply end_of_pass_ok.
    cbn [value_stack]. apply printable_after_pop.
    exact (pass_begins_printable program stack_size m0 m passes Hinit Hrun).
  - simpl. split; [lia | reflexivity].
Qed.

(** C7: a pass through the loop that fetches br_false, on a stack with at
    least two elements, pops the offset and then the condition.  In any
    state in which a pass of a run begins: when the condition is 1 the pass
    raises nothing and the program counter is one more than before,
    whatever the offset; when the condition is anything else (0, 2, a
    negative integer, None) and the offset is the integer k, the pass
    raises nothing and the program counter is the one before plus k plus
    1.  Both elements are gone from the stack afterwards.  In a state
    given from outside the pass does the same, unless what is left of the
    stack holds an integer of more than 4300 digits, which makes the
    display raise. *)
Theorem C7_br_false_branches_unless_one (m : t) (i : Instruction)
  (offset_index check_condition : value) :
  fetch m = Ok (Some i, m) ->
  instruction_name i = Op.br_false ->
  2 <= Stack.len (value_stack m) ->
  fst (Stack.pop (value_stack m)) = offset_index ->
  fst (Stack.pop (snd (Stack.pop (value_stack m)))) = check_condition ->
  (check_condition = VInt 1 ->
   exists m' : t,
     (forall (program : list Instruction) (stack_size : Z) (m0 : t)
             (passes : nat),
         init program stack_size = Ok m0 ->
         run passes m0 = StillRunning m ->
         iteration m = Ok (Some m'))
     /\ iteration m =
          (if printable_stack (snd (Stack.pop (snd (Stack.pop (value_stack m)))))
           then Ok (Some m')
           else Raise DigitsValueError)
     /\ program_counter m' = program_counter m + 1
     /\ value_stack m' = snd (Stack.pop (snd (Stack.pop (value_stack m)))))
  /\ (check_condition <> VInt 1 ->
      forall k : Z, offset_index = VInt k ->
      exists m' : t,
        (forall (program : list Instruction) (stack_size : Z) (m0 : t)
                (passes : nat),
            init program stack_size = Ok m0 ->
            run passes m0 = StillRunning m ->
            iteration m = Ok (Some m'))
        /\ iteration m =
             (if printable_stack
                   (snd (Stack.pop (snd (Stack.pop (value_stack m)))))
              then Ok (Some m')
              else Raise DigitsValueError)
        /\ program_counter m' = program_counter m + k + 1
        /\ value_stack m' = snd (Stack.pop (snd (Stack.pop (value_stack m))))).
Proof.
  intros Hfetch Hname Hlen Hoff Hcond.
  assert (Hshown :
    forall (program : list Instruction) (stack_size : Z) (m0 : t)
           (passes : nat),
      init program stack_size = Ok m0 ->
      run passes m0 = StillRunning m ->
      printable_stack (snd (Stack.pop (snd (Stack.pop (value_stack m)))))
      = true).
  { intros program stack_size m0 passes Hinit Hrun.
    apply printable_after_pop. apply printable_after_pop.
    exact (pass_begins_printable program stack_size m0 m passes Hinit Hrun). }
  rewrite (iteration_fetched i m Hfetch). unfold call_method. rewrite Hname.
  rewrite br_false_pops by exact Hlen. rewrite Hoff, Hcond. split.
  - intros ->. simpl. eexists. split; [|split; [reflexivity|]].
    + intros program stack_size m0 passes Hinit Hrun. apply end_of_pass_ok.
      cbn [value_stack].
      exact (Hshown program stack_size m0 passes Hinit Hrun).
    + simpl. auto.
  - intros Hne k ->.
    assert (Hb : py_eq check_condition (VInt TRUE) = false).
    { destruct check_condition as [c|]; [|reflexivity]. simpl.
      apply Z.eqb_neq. intros ->. apply Hne. reflexivity. }
    rewrite Hb. simpl. eexists. split; [|split; [reflexivity|]].
    + intros program stack_size m0 passes Hinit Hrun. apply end_of_pass_ok.
      cbn [value_stack].
      exact (Hshown program stack_size m0 passes Hinit Hrun).
    + simpl. split; [lia | reflexivity].
Qed.

(** C10: dup on a stack that is not empty and holds as many elements as
    its limit allows, in any state in which a pass of a run begins, raises
    nothing and leaves the stack as it was: the popped top goes back, the
    second push finds the stack full and only prints that the value could
    not be pushed.  In a state given from outside dup does the same,
    unless the top is an integer of more than 4300 digits, for which the
    message of the refused push cannot be built. *)
Theorem C10_dup_on_full_stack_changes_nothing (m : t) :
  1 <= Stack.len (value_stack m) ->
  Stack.len (value_stack m) = Stack.size_limit (value_stack m) ->
  exists m' : t,
    (forall (program : list Instruction) (stack_size : Z) (m0 : t)
            (passes : nat),
        init program stack_size = Ok m0 ->
        run passes m0 = StillRunning m ->
        dup m = Ok (tt, m'))
    /\ dup m =
         (if printable (last (Stack.stack_elements (value_stack m)) VNone)
          then Ok (tt, m')
          else Raise DigitsValueError)
    /\ value_stack m' = value_stack m
    /\ program_counter m' = program_counter m
    /\ stdout m' =
         stdout m
         ++ [StackFull (last (Stack.stack_elements (value_stack m)) VNone)].
Proof.
  intros Hne Hfull.
  assert (Hels : Stack.stack_elements (value_stack m) <> []).
  { intros E. unfold Stack.len in Hne. rewrite E in Hne. simpl in Hne. lia. }
  pose proof (length_removelast _ Hels) as Hrem.
  assert (Hdup :
    dup m =
      if printable (last (Stack.stack_elements (value_stack m)) VNone)
      then Ok (tt, mk (value_stack m) (size_limit m) (instructions m)
                      (program_counter m)
                      (stdout m
                       ++ [StackFull
                             (last (Stack.stack_elements (value_stack m)) VNone)]))
      else Raise DigitsValueError).
  { unfold dup, bind, stack_len, stack_pop.
    destruct (Z.ltb_spec (Stack.len (value_stack m)) 1) as [Hlt|_]; [lia|].
    rewrite pop_nonempty by exact Hne.
    unfold stack_push.
    cbn [value_stack size_limit instructions program_counter stdout].
    rewrite push_room
      by (unfold Stack.len in *; cbn [Stack.stack_elements Stack.size_limit]; lia).
    cbn [Stack.stack_elements Stack.size_limit value_stack size_limit
         instructions program_counter stdout].
    rewrite <- (app_removelast_last VNone Hels).
    replace (Stack.mk (Stack.stack_elements (value_stack m))
               (Stack.size_limit (value_stack m)))
      with (value_stack m) by (destruct (value_stack m); reflexivity).
    rewrite push_full by lia.
    destruct (printable (last (Stack.stack_elements (value_stack m)) VNone));
      [|reflexivity].
    rewrite app_nil_r. reflexivity. }
  eexists. split; [|split; [exact Hdup|]].
  - intros program stack_size m0 passes Hinit Hrun. rewrite Hdup.
    pose proof (pass_begins_printable program stack_size m0 m passes Hinit Hrun)
      as Hshown.
    apply printable_after_pop in Hshown. destruct Hshown as [_ Htop].
    rewrite pop_nonempty in Htop by exact Hne. simpl in Htop.
    rewrite Htop. reflexivity.
  - simpl. auto.
Qed.

(** C9: a negative program counter does not end the run.  With p between
    -len(instructions) and -1 the loop does not break: the fetch returns
    instructions[len(instructions) + p] and the pass executes it (its
    method, then the display and the increment that end every pass); with
    p below -len(instructions) the fetch raises IndexError; and there is a
    program whose run ends with that IndexError. *)
Theorem C9_negative_program_counter :
  (forall m : t,
      - Z.of_nat (List.length (instructions m)) <= program_counter m <= -1 ->
      exists i : Instruction,
        nth_error (instructions m)
          (Z.to_nat (Z.of_nat (List.length (instructions m)) + program_counter m))
        = Some i
        /\ fetch m = Ok (Some i, m)
        /\ iteration m =
             match call_method i m with
             | Ok (_, m') => end_of_pass m'
             | Raise e => Raise e
             end
        /\ iteration m <> Ok None)
  /\ (forall m : t,
         program_counter m < - Z.of_nat (List.length (instructions m)) ->
         iteration m = Raise IndexError
         /\ forall passes : nat, run (S passes) m = Raised IndexError)
  /\ (exists (m0 : t) (passes : nat),
         init backward_program default_stack_size = Ok m0
         /\ run passes m0 = Raised IndexError).
Proof.
  split; [|split].
  - intros m Hpc.
    set (n := Z.of_nat (List.length (instructions m))) in *.
    assert (Hnth : exists i, nth_error (instructions m)
                               (Z.to_nat (n + program_counter m)) = Some i).
    { destruct (nth_error (instructions m) (Z.to_nat (n + program_counter m)))
        as [i|] eqn:E; [exists i; reflexivity|].
      apply nth_error_None in E. unfold n in *. lia. }
    destruct Hnth as [i Hi]. exists i.
    assert (Hfetch : fetch m = Ok (Some i, m)).
    { unfold fetch, bind, get_program_counter, py_getitem. fold n.
      destruct (Z.gtb_spec (program_counter m) (n - 1)); [lia|]. simpl.
      destruct (Z.ltb_spec (program_counter m) 0); [|lia].
      rewrite (Z.add_comm (program_counter m) n).
      destruct (Z.ltb_spec (n + program_counter m) 0); [lia|].
      destruct (Z.leb_spec n (n + program_counter m)); [lia|]. simpl.
      rewrite Hi. reflexivity. }
    split; [exact Hi|]. split; [exact Hfetch|].
    pose proof (iteration_fetched i m Hfetch) as Hit.
    split; [exact Hit|]. rewrite Hit.
    destruct (call_method i m) as [[u m']|e]; [|discriminate].
    unfold end_of_pass. destruct (printable_stack (value_stack m')); discriminate.
  - intros m Hpc.
    set (n := Z.of_nat (List.length (instructions m))) in *.
    assert (Hit : iteration m = Raise IndexError).
    { unfold iteration, fetch, bind, get_program_counter, py_getitem. fold n.
      assert (0 <= n) by (unfold n; lia).
      destruct (Z.gtb_spec (program_counter m) (n - 1)); [lia|]. simpl.
      destruct (Z.ltb_spec (program_counter m) 0); [|lia].
      destruct (Z.ltb_spec (program_counter m + n) 0); [|lia].
      reflexivity. }
    split; [exact Hit|]. intros passes. simpl. rewrite Hit. reflexivity.
  - eexists. exists 5%nat. split; reflexivity.
Qed.

Lemma C9_negative_program_counter_witness :
  (exists i : Instruction,
      fetch (mk (Stack.mk [] 10) 10 backward_program (-2) [])
      = Ok (Some i, mk (Stack.mk [] 10) 10 backward_program (-2) [])
      /\ i = mkInstruction Op.loadcon (VInt (-4)))
  /\ iteration (mk (Stack.mk [] 10) 10 backward_program (-3) []) = Raise IndexError.
Proof.
  destruct C9_negative_program_counter as (Hwrap & Hraise & _).
  split.
  - destruct (Hwrap (mk (Stack.mk [] 10) 10 backward_program (-2) []))
      as (i & Hi & Hfetch & _).
    + simpl. lia.
    + exists i. split; [exact Hfetch|].
      simpl in Hi. injection Hi as <-. reflexivity.
  - apply (Hraise (mk (Stack.mk [] 10) 10 backward_program (-3) [])).
    simpl. lia.
Defined.

(** C1 (fails on the code): the head of the loop only compares the program
    counter with the last index.  On [loadcon -4, br] the branch leaves the
    program counter at -2; the run goes on, fetches the loadcon again
    through the negative index, and ends with IndexError three passes
    later instead of returning. *)
Theorem C1_negative_program_counter_is_fetched :
  let m0 := mk (Stack.mk [] 10) 10 backward_program 0 [] in
  let m2 := mk (Stack.mk [] 10) 10 backward_program (-2)
              [Displayed [VInt (-4)]; Displayed []] in
  let m3 := mk (Stack.mk [VInt (-4)] 10) 10 backward_program (-1)
              [Displayed [VInt (-4)]; Displayed []; Displayed [VInt (-4)]] in
  init backward_program default_stack_size = Ok m0
  /\ run 2 m0 = StillRunning m2
  /\ iteration m2 = Ok (Some m3)
  /\ run 5 m0 = Raised IndexError.
Proof.
  repeat split; reflexivity.
Qed.

(** *** Whole runs *)

(** A run that returns does so with one final machine, however many
    passes were allowed. *)
Lemma run_finished_unique (p : nat) :
  forall (q : nat) (m a b : t),
    run p m = Finished a -> run q m = Finished b -> a = b.
Proof.
  induction p as [|p IH]; intros q m a b Ha Hb; [discriminate|].
  destruct q as [|q]; [discriminate|].
  simpl in Ha, Hb.
  destruct (iteration m) as [[m'|]|e]; try discriminate.
  - exact (IH q m' a b Ha Hb).
  - congruence.
Qed.

Lemma run_writes_unique (program : list Instruction) (stack_size : Z)
  (vs ws : list value) :
  run_writes program stack_size vs -> run_writes program stack_size ws ->
  vs = ws.
Proof.
  intros (m0 & p & a & Hinit & Hrun & <-) (m0' & q & b & Hinit' & Hrun' & <-).
  rewrite Hinit in Hinit'. injection Hinit' as <-.
  rewrite (run_finished_unique p q m0 a b Hrun Hrun'). reflexivity.
Qed.

(** One pass of the loop on a machine whose instructions and program
    counter are known: fetch, then select the method. *)
Ltac pass i :=
  rewrite (iteration_fetched i) by reflexivity;
  unfold call_method; cbn [instruction_name instruction_value].

Ltac stack_size_ok := unfold Stack.len; cbn; lia.

(** The display and the increment that end a pass on a stack of known
    values that [str] can print. *)
Ltac shown :=
  cbv beta iota;
  rewrite end_of_pass_ok by reflexivity;
  unfold close_pass;
  cbn [value_stack size_limit instructions program_counter stdout
       Stack.stack_elements Stack.size_limit app rev].

Lemma skip_program_run (stack_size : Z) :
  2 <= stack_size ->
  run 4 (mk (Stack.mk [] stack_size) stack_size skip_program 0 []) =
    Finished
      (mk (Stack.mk [VInt 1] stack_size) stack_size skip_program 5
          [Displayed [VInt 1]; Displayed [VInt 2; VInt 1]; Displayed [VInt 1]]).
Proof.
  intros Hsize. unfold run.
  pass (mkInstruction Op.loadcon (VInt 1)).
  unfold loadcon, stack_push. cbn [value_stack].
  rewrite push_room by stack_size_ok.
  cbn [Stack.stack_elements Stack.size_limit app]. shown.
  pass (mkInstruction Op.loadcon (VInt 2)).
  unfold loadcon, stack_push. cbn [value_stack].
  rewrite push_room by stack_size_ok.
  cbn [Stack.stack_elements Stack.size_limit app]. shown.
  pass (mkInstruction Op.br VNone).
  rewrite br_pops by stack_size_ok.
  cbn [value_stack size_limit instructions program_counter stdout].
  rewrite (pop_nonempty (Stack.mk [VInt 1; VInt 2] stack_size))
    by stack_size_ok.
  cbn [fst snd Stack.stack_elements Stack.size_limit last removelast].
  rewrite add_int_to_program_counter. shown.
  reflexivity.
Qed.

Lemma skip_program_init (stack_size : Z) :
  2 <= stack_size ->
  init skip_program stack_size =
    Ok (mk (Stack.mk [] stack_size) stack_size skip_program 0 []).
Proof.
  intros Hsize. unfold init, Stack.init. simpl List.length.
  destruct (Z.gtb_spec (Z.of_nat 0) stack_size); [simpl in *; lia | reflexivity].
Qed.

(** C2 as the code has it: on [loadcon 1, loadcon 2, br, write, write],
    built by the constructor, with a stack size of 2 or more, the run
    returns after three instructions without any write having fired.  The
    br pops 2 at index 2 and leaves the program counter at 5, past both
    writes, and the 1 stays on the stack. *)
Theorem C2_offset_two_skips_both_writes (stack_size : Z) :
  2 <= stack_size ->
  map (fun a => Instruction_init (fst a) (snd a))
    [("loadcon", VInt 1); ("loadcon", VInt 2); ("br", VNone);
     ("write", VNone); ("write", VNone)]%string
  = map Ok skip_program
  /\ run_writes skip_program stack_size []
  /\ (forall values : list value,
         run_writes skip_program stack_size values -> values = [])
  /\ (exists m0 m : t,
         init skip_program stack_size = Ok m0
         /\ run 4 m0 = Finished m
         /\ program_counter m = 5
         /\ Stack.stack_elements (value_stack m) = [VInt 1]).
Proof.
  intros Hsize.
  assert (Hnone : run_writes skip_program stack_size []).
  { eexists. exists 4%nat. eexists.
    split; [apply skip_program_init; exact Hsize|].
    split; [apply skip_program_run; exact Hsize | reflexivity]. }
  split; [reflexivity|]. split; [exact Hnone|]. split.
  - intros values Hvalues.
    exact (run_writes_unique _ _ _ _ Hvalues Hnone).
  - eexists. eexists.
    split; [apply skip_program_init; exact Hsize|].
    split; [apply skip_program_run; exact Hsize|]. split; reflexivity.
Qed.

Lemma C2_offset_two_skips_both_writes_witness :
  run_writes skip_program 2 [].
Proof.
  apply (C2_offset_two_skips_both_writes 2). lia.
Defined.

(** C2 as stated fails: with a stack size of 2 the run of
    [loadcon 1, loadcon 2, br, write, write] does not write 1. *)
Lemma C2_counterexample : ~ run_writes skip_program 2 [VInt 1].
Proof.
  intros Hone.
  assert (Hnone : run_writes skip_program 2 []).
  { eexists. exists 4%nat. eexists.
    split; [apply skip_program_init; lia|].
    split; [apply skip_program_run; lia | reflexivity]. }
  pose proof (run_writes_unique _ _ _ _ Hone Hnone) as Habs.
  discriminate Habs.
Qed.

(** *** Concrete instances *)

Lemma C4_br_moves_by_offset_plus_one_witness :
  exists m' : t,
    iteration (mk (Stack.mk [VInt 1; VInt 2] 10) 10 skip_program 2
                  [Displayed [VInt 1]; Displayed [VInt 2; VInt 1]])
    = Ok (Some m')
    /\ program_counter m' = 2 + 2 + 1
    /\ value_stack m' = Stack.mk [VInt 1] 10.
Proof.
  destruct (C4_br_moves_by_offset_plus_one
              (mk (Stack.mk [VInt 1; VInt 2] 10) 10 skip_program 2
                  [Displayed [VInt 1]; Displayed [VInt 2; VInt 1]])
              (mkInstruction Op.br VNone) 2)
    as (m' & Hrun & _ & Hpc & Hstack).
  - reflexivity.
  - reflexivity.
  - vm_compute. discriminate.
  - reflexivity.
  - exists m'. split; [|split; [exact Hpc | exact Hstack]].
    apply (Hrun skip_program 10 (mk (Stack.mk [] 10) 10 skip_program 0 []) 2%nat).
    + reflexivity.
    + reflexivity.
Defined.

Lemma C5_underflow_is_a_noop_witness :
  iteration (mk (Stack.mk [] 10) 10 [mkInstruction Op.add VNone] 0 [])
  = Ok (Some (mk (Stack.mk [] 10) 10 [mkInstruction Op.add VNone] 1
                 [Displayed []])).
Proof.
  destruct (C5_underflow_is_a_noop
              (mk (Stack.mk [] 10) 10 [mkInstruction Op.add VNone] 0 [])
              (mkInstruction Op.add VNone)) as (Hrun & _).
  - reflexivity.
  - vm_compute. reflexivity.
  - apply (Hrun [mkInstruction Op.add VNone] 10
             (mk (Stack.mk [] 10) 10 [mkInstruction Op.add VNone] 0 []) 0%nat).
    + reflexivity.
    + reflexivity.
Defined.

Lemma C7_br_false_branches_unless_one_witness :
  (exists m' : t,
      iteration (mk (Stack.mk [VInt 1; VInt 3] 10) 10
                    [mkInstruction Op.loadcon (VInt 1);
                     mkInstruction Op.loadcon (VInt 3);
                     mkInstruction Op.br_false VNone] 2
                    [Displayed [VInt 1]; Displayed [VInt 3; VInt 1]])
      = Ok (Some m')
      /\ program_counter m' = 2 + 1
      /\ value_stack m' = Stack.mk [] 10)
  /\ (exists m' : t,
         iteration (mk (Stack.mk [VInt 2; VInt 3] 10) 10
                       [mkInstruction Op.loadcon (VInt 2);
                        mkInstruction Op.loadcon (VInt 3);
                        mkInstruction Op.br_false VNone] 2
                       [Displayed [VInt 2]; Displayed [VInt 3; VInt 2]])
         = Ok (Some m')
         /\ program_counter m' = 2 + 3 + 1
         /\ value_stack m' = Stack.mk [] 10).
Proof.
  split.
  - destruct (C7_br_false_branches_unless_one
                (mk (Stack.mk [VInt 1; VInt 3] 10) 10
                    [mkInstruction Op.loadcon (VInt 1);
                     mkInstruction Op.loadcon (VInt 3);
                     mkInstruction Op.br_false VNone] 2
                    [Displayed [VInt 1]; Displayed [VInt 3; VInt 1]])
                (mkInstruction Op.br_false VNone) (VInt 3) (VInt 1))
      as [Hone _]; try reflexivity.
    destruct (Hone eq_refl) as (m' & Hrun & _ & Hpc & Hstack).
    exists m'. split; [|split; [exact Hpc | exact Hstack]].
    apply (Hrun [mkInstruction Op.loadcon (VInt 1);
                 mkInstruction Op.loadcon (VInt 3);
                 mkInstruction Op.br_false VNone] 10
             (mk (Stack.mk [] 10) 10
                 [mkInstruction Op.loadcon (VInt 1);
                  mkInstruction Op.loadcon (VInt 3);
                  mkInstruction Op.br_false VNone] 0 []) 2%nat);
      reflexivity.
  - destruct (C7_br_false_branches_unless_one
                (mk (Stack.mk [VInt 2; VInt 3] 10) 10
                    [mkInstruction Op.loadcon (VInt 2);
                     mkInstruction Op.loadcon (VInt 3);
                     mkInstruction Op.br_false VNone] 2
                    [Displayed [VInt 2]; Displayed [VInt 3; VInt 2]])
                (mkInstruction Op.br_false VNone) (VInt 3) (VInt 2))
      as [_ Hother]; try reflexivity.
    destruct (Hother ltac:(discriminate) 3 eq_refl)
      as (m' & Hrun & _ & Hpc & Hstack).
    exists m'. split; [|split; [exact Hpc | exact Hstack]].
    apply (Hrun [mkInstruction Op.loadcon (VInt 2);
                 mkInstruction Op.loadcon (VInt 3);
                 mkInstruction Op.br_false VNone] 10
             (mk (Stack.mk [] 10) 10
                 [mkInstruction Op.loadcon (VInt 2);
                  mkInstruction Op.loadcon (VInt 3);
                  mkInstruction Op.br_false VNone] 0 []) 2%nat);
      reflexivity.
Defined.

Lemma C10_dup_on_full_stack_changes_nothing_witness :
  exists m' : t,
    dup (mk (Stack.mk [VInt 4; VInt 5] 2) 2
            [mkInstruction Op.loadcon (VInt 4); mkInstruction Op.loadcon (VInt 5);
             mkInstruction Op.dup VNone] 2
            [Displayed [VInt 4]; Displayed [VInt 5; VInt 4]])
    = Ok (tt, m')
    /\ value_stack m' = Stack.mk [VInt 4; VInt 5] 2
    /\ program_counter m' = 2
    /\ stdout m' = [Displayed [VInt 4]; Displayed [VInt 5; VInt 4];
                    StackFull (VInt 5)].
Proof.
  destruct (C10_dup_on_full_stack_changes_nothing
              (mk (Stack.mk [VInt 4; VInt 5] 2) 2
                  [mkInstruction Op.loadcon (VInt 4);
                   mkInstruction Op.loadcon (VInt 5);
                   mkInstruction Op.dup VNone] 2
                  [Displayed [VInt 4]; Displayed [VInt 5; VInt 4]]))
    as (m' & Hrun & _ & Hstack & Hpc & Hout).
  - vm_compute. discriminate.
  - reflexivity.
  - exists m'. split; [|split; [exact Hstack|split; [exact Hpc | exact Hout]]].
    apply (Hrun [mkInstruction Op.loadcon (VInt 4);
                 mkInstruction Op.loadcon (VInt 5);
                 mkInstruction Op.dup VNone] 2
             (mk (Stack.mk [] 2) 2
                 [mkInstruction Op.loadcon (VInt 4);
                  mkInstruction Op.loadcon (VInt 5);
                  mkInstruction Op.dup VNone] 0 []) 2%nat);
      reflexivity.
Defined.

End Machine.

(** * Further properties of the code *)

(** ** The stack, seen by its callers *)

Lemma pop_snoc (l : list value) (v : value) (c : Z) :
  Stack.pop (Stack.mk (l ++ [v]) c) = (v, Stack.mk l c).
Proof.
  rewrite pop_nonempty.
  - simpl. rewrite last_last, removelast_last. reflexivity.
  - unfold Stack.len. simpl. rewrite length_app. simpl. lia.
Qed.

(** A push that finds room followed by a pop gives back the element pushed
    and the stack as it was, and nothing is printed. *)
Theorem push_then_pop (s : Stack.t) (elem : value) :
  Stack.len s + 1 <= Stack.size_limit s ->
  exists s' : Stack.t,
    Stack.push s elem = Ok (s', [])
    /\ Stack.pop s' = (elem, s).
Proof.
  intros Hroom. rewrite push_room by exact Hroom.
  eexists. split; [reflexivity|]. rewrite pop_snoc. destruct s; reflexivity.
Qed.

Lemma push_then_pop_witness :
  exists s' : Stack.t,
    Stack.push (Stack.mk [VInt 4] 2) (VInt 5) = Ok (s', [])
    /\ Stack.pop s' = (VInt 5, Stack.mk [VInt 4] 2).
Proof.
  apply (push_then_pop (Stack.mk [VInt 4] 2) (VInt 5)).
  vm_compute. discriminate.
Defined.

(** A pop from a stack that is not empty and within its limit, followed by
    a push of the popped element, restores the stack; the popped element is
    the last one of the list. *)
Theorem pop_then_push (s : Stack.t) :
  1 <= Stack.len s -> Stack.len s <= Stack.size_limit s ->
  fst (Stack.pop s) = last (Stack.stack_elements s) VNone
  /\ Stack.len (snd (Stack.pop s)) = Stack.len s - 1
  /\ Stack.push (snd (Stack.pop s)) (fst (Stack.pop s)) = Ok (s, []).
Proof.
  intros Hne Hin.
  assert (Hels : Stack.stack_elements s <> []).
  { intros E. unfold Stack.len in Hne. rewrite E in Hne. simpl in Hne. lia. }
  pose proof (len_pop s Hne) as Hlen.
  rewrite pop_nonempty in * by exact Hne. simpl fst in *. simpl snd in *.
  split; [reflexivity|]. split; [exact Hlen|].
  rewrite push_room by (simpl Stack.size_limit; lia).
  simpl. rewrite <- (app_removelast_last VNone Hels). destruct s; reflexivity.
Qed.

Lemma pop_then_push_witness :
  Stack.push (snd (Stack.pop (Stack.mk [VInt 4; VInt 5] 2)))
             (fst (Stack.pop (Stack.mk [VInt 4; VInt 5] 2)))
  = Ok (Stack.mk [VInt 4; VInt 5] 2, []).
Proof.
  apply (pop_then_push (Stack.mk [VInt 4; VInt 5] 2)).
  - vm_compute. discriminate.
  - vm_compute. discriminate.
Defined.

Lemma pops_on_empty (n : nat) (c : Z) :
  Stack.do_calls (Stack.mk [] c) (repeat Stack.Pop n) = Stack.mk [] c.
Proof.
  induction n as [|n IH]; [reflexivity|]. simpl repeat.
  unfold Stack.do_calls in *. simpl fold_left. exact IH.
Qed.

(** A pop from an empty stack returns None and leaves the stack empty;
    however many pops are made on an empty stack, it stays as it was.  So a
    None returned by pop does not tell an empty stack from a stack whose
    top was None. *)
Theorem pop_on_empty_stack :
  (forall s : Stack.t,
      Stack.stack_elements s = [] -> Stack.pop s = (VNone, s))
  /\ (forall (n : nat) (c : Z),
         Stack.do_calls (Stack.mk [] c) (repeat Stack.Pop n) = Stack.mk [] c)
  /\ (forall (l : list value) (c : Z),
         fst (Stack.pop (Stack.mk (l ++ [VNone]) c))
         = fst (Stack.pop (Stack.mk [] c))).
Proof.
  split; [|split].
  - intros s Hempty. apply pop_empty. unfold Stack.len. rewrite Hempty.
    reflexivity.
  - exact pops_on_empty.
  - intros l c. rewrite pop_snoc. reflexivity.
Qed.

Lemma pop_on_empty_stack_witness :
  Stack.pop (Stack.mk [] 3) = (VNone, Stack.mk [] 3).
Proof.
  destruct pop_on_empty_stack as (Hpop & _ & _).
  apply (Hpop (Stack.mk [] 3)). reflexivity.
Defined.

(** The constructor of the stack accepts the initial elements exactly when
    there are no more of them than the limit, and then holds them in
    order.  The machine makes its stack with no elements, so it is
    constructed exactly when the stack size is not negative; it then
    starts at program counter 0 with an empty stack and nothing printed,
    and a negative stack size raises the stack's exception. *)
Theorem construction_needs_room :
  (forall (limit : Z) (elements : list value),
      Z.of_nat (List.length elements) <= limit ->
      Stack.init limit elements = Ok (Stack.mk elements limit))
  /\ (forall (limit : Z) (elements : list value),
         limit < Z.of_nat (List.length elements) ->
         Stack.init limit elements = Raise StackElementsExceedLimit)
  /\ (forall (program : list Instruction) (stack_size : Z),
         0 <= stack_size ->
         StackMachine.init program stack_size
         = Ok (StackMachine.mk (Stack.mk [] stack_size) stack_size program 0 []))
  /\ (forall (program : list Instruction) (stack_size : Z),
         stack_size < 0 ->
         StackMachine.init program stack_size = Raise StackElementsExceedLimit).
Proof.
  split; [|split; [|split]].
  - intros limit elements Hfit. unfold Stack.init.
    destruct (Z.gtb_spec (Z.of_nat (List.length elements)) limit);
      [lia | reflexivity].
  - intros limit elements Hover. unfold Stack.init.
    destruct (Z.gtb_spec (Z.of_nat (List.length elements)) limit);
      [reflexivity | lia].
  - intros program stack_size Hsize. unfold StackMachine.init, Stack.init.
    simpl List.length.
    destruct (Z.gtb_spec (Z.of_nat 0) stack_size); [simpl in *; lia | reflexivity].
  - intros program stack_size Hsize. unfold StackMachine.init, Stack.init.
    simpl List.length.
    destruct (Z.gtb_spec (Z.of_nat 0) stack_size); [reflexivity | simpl in *; lia].
Qed.

Lemma construction_needs_room_witness :
  Stack.init 2 [VInt 1; VInt 2] = Ok (Stack.mk [VInt 1; VInt 2] 2)
  /\ Stack.init 1 [VInt 1; VInt 2] = Raise StackElementsExceedLimit
  /\ StackMachine.init skip_program 0
     = Ok (StackMachine.mk (Stack.mk [] 0) 0 skip_program 0 [])
  /\ StackMachine.init skip_program (-1) = Raise StackElementsExceedLimit.
Proof.
  destruct construction_needs_room as (Hfit & Hover & Hmachine & Hneg).
  split; [|split; [|split]].
  - apply (Hfit 2 [VInt 1; VInt 2]). simpl. lia.
  - apply (Hover 1 [VInt 1; VInt 2]). simpl. lia.
  - apply (Hmachine skip_program 0). lia.
  - apply (Hneg skip_program (-1)). lia.
Defined.

(** ** What each method does to the stack *)

Section Methods.

Import StackMachine.

(** The parts of the machine the methods below leave alone. *)
Variables (c lim : Z) (prog : list Instruction) (pc : Z) (out : list line).

Lemma stack_pop_snoc (l : list value) (v : value) :
  stack_pop (mk (Stack.mk (l ++ [v]) c) lim prog pc out)
  = Ok (v, mk (Stack.mk l c) lim prog pc out).
Proof.
  unfold stack_pop. cbn [value_stack]. rewrite pop_snoc. reflexivity.
Qed.

Lemma stack_push_room (l : list value) (v : value) :
  Z.of_nat (List.length l) + 1 <= c ->
  stack_push v (mk (Stack.mk l c) lim prog pc out)
  = Ok (tt, mk (Stack.mk (l ++ [v]) c) lim prog pc out).
Proof.
  intros Hroom. unfold stack_push. cbn [value_stack].
  rewrite push_room by exact Hroom. cbn. rewrite app_nil_r. reflexivity.
Qed.

Lemma stack_push_full (l : list value) (v : value) :
  c < Z.of_nat (List.length l) + 1 ->
  stack_push v (mk (Stack.mk l c) lim prog pc out)
  = if printable v
    then Ok (tt, mk (Stack.mk l c) lim prog pc (out ++ [StackFull v]))
    else Raise DigitsValueError.
Proof.
  intros Hfull. unfold stack_push. cbn [value_stack].
  rewrite push_full by exact Hfull. destruct (printable v); reflexivity.
Qed.

Lemma long_enough (l : list value) (n : Z) :
  n <= Z.of_nat (List.length l) ->
  (Stack.len (value_stack (mk (Stack.mk l c) lim prog pc out)) <? n) = false.
Proof. intros Hn. apply Z.ltb_ge. exact Hn. Qed.

Lemma two_on_top (l : list value) (y x : value) :
  l ++ [y; x] = (l ++ [y]) ++ [x].
Proof. rewrite <- app_assoc. reflexivity. Qed.

Lemma length_two_on_top (l : list value) (y x : value) :
  Z.of_nat (List.length (l ++ [y; x])) = Z.of_nat (List.length l) + 2.
Proof. rewrite length_app. simpl. lia. Qed.

Lemma length_one_on_top (l : list value) (x : value) :
  Z.of_nat (List.length (l ++ [x])) = Z.of_nat (List.length l) + 1.
Proof. rewrite length_app. simpl. lia. Qed.

(** Enter a method whose length test passes on a stack ending in one or
    two known elements, and make its pops. *)
Ltac enter_two :=
  unfold bind, stack_len;
  rewrite long_enough by (rewrite length_two_on_top; lia);
  rewrite two_on_top, stack_pop_snoc, stack_pop_snoc.

Ltac enter_one :=
  unfold bind, stack_len;
  rewrite long_enough by (rewrite length_one_on_top; lia);
  rewrite stack_pop_snoc.

Lemma add_integers (l : list value) (a b : Z) :
  Z.of_nat (List.length l) + 1 <= c ->
  add (mk (Stack.mk (l ++ [VInt b; VInt a]) c) lim prog pc out)
  = Ok (tt, mk (Stack.mk (l ++ [VInt (a + b)]) c) lim prog pc out).
Proof.
  intros Hroom. unfold add. enter_two. cbn. apply stack_push_room. lia.
Qed.

Lemma mpy_integers (l : list value) (a b : Z) :
  Z.of_nat (List.length l) + 1 <= c ->
  mpy (mk (Stack.mk (l ++ [VInt b; VInt a]) c) lim prog pc out)
  = Ok (tt, mk (Stack.mk (l ++ [VInt (a * b)]) c) lim prog pc out).
Proof.
  intros Hroom. unfold mpy. enter_two. cbn. apply stack_push_room. lia.
Qed.

Lemma negate_integer (l : list value) (a : Z) :
  Z.of_nat (List.length l) + 1 <= c ->
  negate (mk (Stack.mk (l ++ [VInt a]) c) lim prog pc out)
  = Ok (tt, mk (Stack.mk (l ++ [VInt (- a)]) c) lim prog pc out).
Proof.
  intros Hroom. unfold negate. enter_one. cbn [py_mul lift].
  replace (a * -1) with (- a) by lia. apply stack_push_room. lia.
Qed.

Lemma equal_integers (l : list value) (a b : Z) :
  Z.of_nat (List.length l) + 1 <= c ->
  equal (mk (Stack.mk (l ++ [VInt b; VInt a]) c) lim prog pc out)
  = Ok (tt, mk (Stack.mk (l ++ [VInt (if a =? b then 1 else 0)]) c)
               lim prog pc out).
Proof.
  intros Hroom. unfold equal. enter_two. cbn [py_eq].
  destruct (a =? b); apply stack_push_room; lia.
Qed.

Lemma less_integers (l : list value) (a b : Z) :
  Z.of_nat (List.length l) + 1 <= c ->
  less (mk (Stack.mk (l ++ [VInt b; VInt a]) c) lim prog pc out)
  = Ok (tt, mk (Stack.mk (l ++ [VInt (if b <? a then 1 else 0)]) c)
               lim prog pc out).
Proof.
  intros Hroom. unfold less. enter_two. cbn [py_lt lift].
  destruct (b <? a); apply stack_push_room; lia.
Qed.

Lemma swap_top (l : list value) (x y : value) :
  Z.of_nat (List.length l) + 2 <= c ->
  swap (mk (Stack.mk (l ++ [y; x]) c) lim prog pc out)
  = Ok (tt, mk (Stack.mk (l ++ [x; y]) c) lim prog pc out).
Proof.
  intros Hroom. unfold swap. enter_two. unfold bind.
  rewrite stack_push_room by lia.
  rewrite stack_push_room by (rewrite length_one_on_top; lia).
  rewrite <- two_on_top. reflexivity.
Qed.

Lemma dup_top (l : list value) (x : value) :
  Z.of_nat (List.length l) + 2 <= c ->
  dup (mk (Stack.mk (l ++ [x]) c) lim prog pc out)
  = Ok (tt, mk (Stack.mk (l ++ [x; x]) c) lim prog pc out).
Proof.
  intros Hroom. unfold dup. enter_one. unfold bind.
  rewrite stack_push_room by lia.
  rewrite stack_push_room by (rewrite length_one_on_top; lia).
  rewrite <- two_on_top. reflexivity.
Qed.

Lemma write_top (l : list value) (x : value) :
  write (mk (Stack.mk (l ++ [x]) c) lim prog pc out)
  = if printable x
    then Ok (tt, mk (Stack.mk l c) lim prog pc (out ++ [Written x]))
    else Raise DigitsValueError.
Proof. unfold write. enter_one. destruct (printable x); reflexivity. Qed.

(** add and mpy on a stack (within its limit) whose two top elements are
    the integers b and a, a on top: both are replaced by a + b, for mpy by
    a * b; nothing is printed and the program counter is not touched. *)
Theorem add_and_mpy_on_integers (l : list value) (a b : Z) :
  Z.of_nat (List.length (l ++ [VInt b; VInt a])) <= c ->
  add (mk (Stack.mk (l ++ [VInt b; VInt a]) c) lim prog pc out)
  = Ok (tt, mk (Stack.mk (l ++ [VInt (a + b)]) c) lim prog pc out)
  /\ mpy (mk (Stack.mk (l ++ [VInt b; VInt a]) c) lim prog pc out)
     = Ok (tt, mk (Stack.mk (l ++ [VInt (a * b)]) c) lim prog pc out).
Proof.
  rewrite length_two_on_top. intros Hin.
  split; [apply add_integers | apply mpy_integers]; lia.
Qed.

(** negate on a stack (within its limit) whose top is the integer a
    replaces it by -a, and a second negate restores the machine. *)
Theorem negate_is_an_involution (l : list value) (a : Z) :
  Z.of_nat (List.length (l ++ [VInt a])) <= c ->
  negate (mk (Stack.mk (l ++ [VInt a]) c) lim prog pc out)
  = Ok (tt, mk (Stack.mk (l ++ [VInt (- a)]) c) lim prog pc out)
  /\ bind negate (fun _ => negate) (mk (Stack.mk (l ++ [VInt a]) c) lim prog pc out)
     = Ok (tt, mk (Stack.mk (l ++ [VInt a]) c) lim prog pc out).
Proof.
  rewrite length_one_on_top. intros Hin.
  split; [apply negate_integer; lia|].
  unfold bind at 1. rewrite !negate_integer by lia.
  rewrite Z.opp_involutive. reflexivity.
Qed.

(** equal and less on a stack (within its limit) whose two top elements
    are the integers b and a, a on top, replace both by 1 or 0 and by
    nothing else: equal by 1 exactly when a = b, less by 1 exactly when the
    second element b is less than the top a. *)
Theorem equal_and_less_push_one_or_zero (l : list value) (a b : Z) :
  Z.of_nat (List.length (l ++ [VInt b; VInt a])) <= c ->
  equal (mk (Stack.mk (l ++ [VInt b; VInt a]) c) lim prog pc out)
  = Ok (tt, mk (Stack.mk (l ++ [VInt (if a =? b then 1 else 0)]) c)
               lim prog pc out)
  /\ less (mk (Stack.mk (l ++ [VInt b; VInt a]) c) lim prog pc out)
     = Ok (tt, mk (Stack.mk (l ++ [VInt (if b <? a then 1 else 0)]) c)
                  lim prog pc out).
Proof.
  rewrite length_two_on_top. intros Hin.
  split; [apply equal_integers | apply less_integers]; lia.
Qed.

(** swap on a stack (within its limit) with at least two elements, of any
    kind, exchanges the two on top, and a second swap restores the
    machine. *)
Theorem swap_is_an_involution (l : list value) (x y : value) :
  Z.of_nat (List.length (l ++ [y; x])) <= c ->
  swap (mk (Stack.mk (l ++ [y; x]) c) lim prog pc out)
  = Ok (tt, mk (Stack.mk (l ++ [x; y]) c) lim prog pc out)
  /\ bind swap (fun _ => swap) (mk (Stack.mk (l ++ [y; x]) c) lim prog pc out)
     = Ok (tt, mk (Stack.mk (l ++ [y; x]) c) lim prog pc out).
Proof.
  rewrite length_two_on_top. intros Hin.
  split; [apply swap_top; lia|].
  unfold bind at 1. rewrite !swap_top by lia. reflexivity.
Qed.

(** dup on a stack that is not empty and has room for one more element
    puts a second copy of the top, of any kind, on the stack. *)
Theorem dup_with_room (l : list value) (x : value) :
  Z.of_nat (List.length (l ++ [x])) + 1 <= c ->
  dup (mk (Stack.mk (l ++ [x]) c) lim prog pc out)
  = Ok (tt, mk (Stack.mk (l ++ [x; x]) c) lim prog pc out).
Proof.
  rewrite length_one_on_top. intros Hroom. apply dup_top. lia.
Qed.

(** write on a stack that is not empty removes the top, of any kind, and
    prints it after everything printed before; the rest of the stack is
    not touched.  It does so in any state in which a pass of a run begins;
    in a state given from outside it does the same, unless the top is an
    integer of more than 4300 digits, which [print] cannot turn into
    text. *)
Theorem write_pops_and_prints (l : list value) (x : value) :
  (forall (program : list Instruction) (stack_size : Z) (m0 : t)
          (passes : nat),
      init program stack_size = Ok m0 ->
      run passes m0 = StillRunning (mk (Stack.mk (l ++ [x]) c) lim prog pc out) ->
      write (mk (Stack.mk (l ++ [x]) c) lim prog pc out)
      = Ok (tt, mk (Stack.mk l c) lim prog pc (out ++ [Written x])))
  /\ write (mk (Stack.mk (l ++ [x]) c) lim prog pc out)
     = (if printable x
        then Ok (tt, mk (Stack.mk l c) lim prog pc (out ++ [Written x]))
        else Raise DigitsValueError)
  /\ written (out ++ [Written x]) = written out ++ [x].
Proof.
  split; [|split; [apply write_top|]].
  - intros program stack_size m0 passes Hinit Hrun. rewrite write_top.
    pose proof (pass_begins_printable program stack_size m0 _ passes Hinit Hrun)
      as Hshown.
    cbn [value_stack] in Hshown. rewrite printable_stack_app in Hshown.
    apply andb_true_iff in Hshown. destruct Hshown as [_ Hx].
    unfold printable_stack in Hx. simpl in Hx. rewrite andb_true_r in Hx.
    rewrite Hx. reflexivity.
  - clear. induction out as [|[e|v|d] out' IH]; simpl; congruence.
Qed.

Lemma br_top (l : list value) (k : Z) :
  br (mk (Stack.mk (l ++ [VInt k]) c) lim prog pc out)
  = Ok (tt, mk (Stack.mk l c) lim prog (pc + k) out).
Proof. unfold br. enter_one. reflexivity. Qed.

Lemma br_false_top (l : list value) (cond : value) (k : Z) :
  br_false (mk (Stack.mk (l ++ [cond; VInt k]) c) lim prog pc out)
  = Ok (tt, mk (Stack.mk l c) lim prog
               (if py_eq cond (VInt 1) then pc else pc + k) out).
Proof.
  unfold br_false. enter_two. change TRUE with 1.
  destruct (py_eq cond (VInt 1)); reflexivity.
Qed.



(** A None on the stack (left there by a loadcon without a value) makes
    the arithmetic raise TypeError: add and mpy when either of the two top
    elements is None, negate and br when the top is None, less when either
    is None.  equal raises nothing: None equals only None. *)
Theorem none_on_the_stack (l : list value) (x : value) :
  Z.of_nat (List.length (l ++ [x; VNone])) <= c ->
  add (mk (Stack.mk (l ++ [x; VNone]) c) lim prog pc out) = Raise TypeError
  /\ add (mk (Stack.mk (l ++ [VNone; x]) c) lim prog pc out) = Raise TypeError
  /\ mpy (mk (Stack.mk (l ++ [x; VNone]) c) lim prog pc out) = Raise TypeError
  /\ mpy (mk (Stack.mk (l ++ [VNone; x]) c) lim prog pc out) = Raise TypeError
  /\ less (mk (Stack.mk (l ++ [x; VNone]) c) lim prog pc out) = Raise TypeError
  /\ less (mk (Stack.mk (l ++ [VNone; x]) c) lim prog pc out) = Raise TypeError
  /\ negate (mk (Stack.mk (l ++ [VNone]) c) lim prog pc out) = Raise TypeError
  /\ br (mk (Stack.mk (l ++ [VNone]) c) lim prog pc out) = Raise TypeError
  /\ equal (mk (Stack.mk (l ++ [x; VNone]) c) lim prog pc out)
     = Ok (tt, mk (Stack.mk (l ++ [VInt (if is_None x then 1 else 0)]) c)
                  lim prog pc out).
Proof.
  rewrite length_two_on_top. intros Hin. repeat split.
  - unfold add. enter_two. reflexivity.
  - unfold add. enter_two. destruct x; reflexivity.
  - unfold mpy. enter_two. reflexivity.
  - unfold mpy. enter_two. destruct x; reflexivity.
  - unfold less. enter_two. destruct x; reflexivity.
  - unfold less. enter_two. reflexivity.
  - unfold negate. enter_one. reflexivity.
  - unfold br. enter_one. reflexivity.
  - unfold equal. enter_two. cbn [py_eq].
    destruct x; apply stack_push_room; lia.
Qed.

End Methods.

(** ** What a run keeps *)

Section Invariant.

Import StackMachine.

Lemma carried_over_refl (m : t) : carried_over m m.
Proof.
  unfold carried_over. repeat split; auto.
  exists []. rewrite app_nil_r. reflexivity.
Qed.

Lemma carried_over_trans (m1 m2 m3 : t) :
  carried_over m1 m2 -> carried_over m2 m3 -> carried_over m1 m3.
Proof.
  intros (Hi & Hl & Hs & Hw & p & Hp) (Hi' & Hl' & Hs' & Hw' & p' & Hp').
  unfold carried_over. repeat split; try congruence; auto.
  exists (p ++ p'). rewrite Hp', Hp, app_assoc. reflexivity.
Qed.

Lemma carries_over_ret {A : Type} (a : A) : carries_over (ret a).
Proof.
  intros m a' m' H. injection H as _ <-. apply carried_over_refl.
Qed.

Lemma carries_over_bind {A B : Type} (c : M A) (k : A -> M B) :
  carries_over c -> (forall a, carries_over (k a)) -> carries_over (bind c k).
Proof.
  intros Hc Hk m b m' H. unfold bind in H.
  destruct (c m) as [[a m1]|e] eqn:E; [|discriminate].
  exact (carried_over_trans _ _ _ (Hc _ _ _ E) (Hk a _ _ _ H)).
Qed.

Lemma carries_over_lift {A : Type} (r : result A) : carries_over (lift r).
Proof.
  intros m a m' H. unfold lift in H. destruct r; [|discriminate].
  injection H as _ <-. apply carried_over_refl.
Qed.

Lemma carries_over_stack_len : carries_over stack_len.
Proof.
  intros m a m' H. injection H as _ <-. apply carried_over_refl.
Qed.

Lemma carries_over_get_program_counter : carries_over get_program_counter.
Proof.
  intros m a m' H. injection H as _ <-. apply carried_over_refl.
Qed.

Lemma carries_over_set_program_counter (pc : Z) :
  carries_over (set_program_counter pc).
Proof.
  intros m a m' H. injection H as _ <-.
  unfold carried_over. simpl. repeat split; auto.
  exists []. rewrite app_nil_r. reflexivity.
Qed.

Lemma carries_over_print (ls : list line) : carries_over (print ls).
Proof.
  intros m a m' H. injection H as _ <-.
  unfold carried_over. simpl. repeat split; auto. exists ls. reflexivity.
Qed.

Lemma carries_over_raise {A : Type} (e : exn) :
  carries_over (fun _ : t => @Raise (A * t) e).
Proof. intros m a m' H. discriminate H. Qed.

Lemma carries_over_display : carries_over display.
Proof.
  intros m a m' H. unfold display in H. cbv zeta in H.
  destruct (forallb printable _); [|discriminate].
  exact (carries_over_print _ _ _ _ H).
Qed.

Lemma carries_over_stack_pop : carries_over stack_pop.
Proof.
  intros m a m' H. unfold stack_pop in H.
  destruct (Stack.pop (value_stack m)) as [v s] eqn:E.
  injection H as _ <-.
  assert (Hs : s = snd (Stack.pop (value_stack m))) by (rewrite E; reflexivity).
  unfold carried_over. simpl. repeat split; auto.
  - rewrite Hs. apply limit_pop.
  - intros Hin. rewrite Hs, limit_pop.
    destruct (Z_le_gt_dec 1 (Stack.len (value_stack m))) as [Hne|Hempty].
    + rewrite len_pop by exact Hne. lia.
    + rewrite pop_empty by (pose proof (len_nonneg (value_stack m)); lia).
      exact Hin.
  - exists []. rewrite app_nil_r. reflexivity.
Qed.

Lemma carries_over_stack_push (elem : value) : carries_over (stack_push elem).
Proof.
  intros m a m' H. unfold stack_push in H.
  destruct (Stack.push (value_stack m) elem) as [[s printed]|e] eqn:E;
    [|discriminate].
  injection H as _ <-.
  assert (Hs : s = Stack.do_call (value_stack m) (Stack.Push elem))
    by (simpl; rewrite E; reflexivity).
  unfold carried_over. simpl. repeat split; auto.
  - rewrite Hs. simpl. apply limit_push.
  - intros Hin. rewrite Hs. apply do_call_bounded. exact Hin.
  - exists printed. reflexivity.
Qed.

Lemma carries_over_add_to_program_counter (v : value) :
  carries_over (add_to_program_counter v).
Proof.
  unfold add_to_program_counter. apply carries_over_bind.
  - apply carries_over_get_program_counter.
  - intros pc. destruct (py_add (VInt pc) v) as [[n|]|e].
    + apply carries_over_set_program_counter.
    + intros m a m' H. discriminate.
    + intros m a m' H. discriminate.
Qed.

(** Split a method body into its calls, each of which carries over. *)
Ltac carry :=
  repeat first
    [ apply carries_over_ret
    | apply carries_over_lift
    | apply carries_over_stack_len
    | apply carries_over_stack_pop
    | apply carries_over_stack_push
    | apply carries_over_print
    | apply carries_over_display
    | apply carries_over_get_program_counter
    | apply carries_over_set_program_counter
    | apply carries_over_add_to_program_counter
    | apply carries_over_raise
    | apply carries_over_bind; [|intros ?]
    | match goal with
      | |- carries_over (if ?b then _ else _) => destruct b
      end ].

Lemma carries_over_call_method (i : Instruction) :
  carries_over (call_method i).
Proof.
  destruct i as [op v]. unfold call_method. cbn [instruction_name instruction_value].
  destruct op;
    unfold add, negate, equal, zero, one, loadcon, br, br_false, dup, mpy,
      write, swap, less;
    carry.
Qed.

Lemma carries_over_execute (i : Instruction) : carries_over (execute i).
Proof.
  unfold execute. apply carries_over_bind; [apply carries_over_call_method|].
  intros _. carry.
Qed.

Lemma iteration_carries_over (m m' : t) :
  iteration m = Ok (Some m') -> carried_over m m'.
Proof.
  unfold iteration. intros H.
  destruct (fetch m) as [[[i|] m1]|e] eqn:Hfetch; try discriminate.
  pose proof (fetch_same _ _ _ Hfetch) as ->.
  destruct (execute i m) as [[u m2]|e] eqn:Hexec; [|discriminate].
  injection H as <-. exact (carries_over_execute i _ _ _ Hexec).
Qed.

(** However long a run has gone on, and whether it has returned or not,
    the machine it has reached has the same program and the same limits
    as at the start, its stack is within the limit if it was at the start,
    and everything printed at the start is still the beginning of what is
    printed. *)
Theorem run_carries_over (passes : nat) :
  forall m m' : t,
    run passes m = Finished m' \/ run passes m = StillRunning m' ->
    carried_over m m'.
Proof.
  induction passes as [|passes IH]; intros m m' H.
  - simpl in H. destruct H as [H|H]; [discriminate|].
    injection H as <-. apply carried_over_refl.
  - simpl in H. destruct (iteration m) as [[m1|]|e] eqn:Hit.
    + apply (carried_over_trans _ m1).
      * apply iteration_carries_over. exact Hit.
      * apply IH. exact H.
    + destruct H as [H|H]; [|discriminate].
      injection H as <-. apply carried_over_refl.
    + destruct H; discriminate.
Qed.

(** A machine constructed for a program never holds more values than its
    stack size, at any point of any run, and never changes its program. *)
Theorem stack_never_exceeds_stack_size (program : list Instruction)
  (stack_size : Z) (m0 m : t) (passes : nat) :
  init program stack_size = Ok m0 ->
  run passes m0 = Finished m \/ run passes m0 = StillRunning m ->
  Stack.len (value_stack m) <= stack_size
  /\ instructions m = program.
Proof.
  intros Hinit Hrun.
  destruct (run_carries_over passes m0 m Hrun) as (Hi & _ & Hs & Hw & _).
  unfold init in Hinit.
  destruct (Stack.init stack_size []) as [s|e] eqn:Hstack; [|discriminate].
  injection Hinit as <-. simpl in *.
  destruct (init_inv _ _ _ Hstack) as (_ & Hcap & Hlen).
  split; [|exact Hi]. rewrite <- Hcap, <- Hs. apply Hw. lia.
Qed.

End Invariant.

(** ** Programs without branches *)

(** Enter a method whose length test passes, and make its pops. *)
Ltac pops_two :=
  unfold StackMachine.bind, StackMachine.stack_len;
  rewrite long_enough by (rewrite length_two_on_top; lia);
  rewrite two_on_top, stack_pop_snoc, stack_pop_snoc.

Ltac pops_one :=
  unfold StackMachine.bind, StackMachine.stack_len;
  rewrite long_enough by (rewrite length_one_on_top; lia);
  rewrite stack_pop_snoc.

Section StraightLine.

Import StackMachine.

Lemma last_cases (l : list value) :
  l = [] \/ exists (l0 : list value) (x : value), l = l0 ++ [x].
Proof.
  destruct l as [|v l] using rev_ind; [left; reflexivity|].
  right. exists l, v. reflexivity.
Qed.

Lemma last_two_cases (l : list value) :
  Z.of_nat (List.length l) < 2
  \/ exists (l0 : list value) (y x : value), l = l0 ++ [y; x].
Proof.
  destruct (last_cases l) as [->|(l1 & x & ->)]; [left; simpl; lia|].
  destruct (last_cases l1) as [->|(l0 & y & ->)]; [left; simpl; lia|].
  right. exists l0, y, x. rewrite <- app_assoc. reflexivity.
Qed.

Lemma integers_only_app (l1 l2 : list value) :
  integers_only (l1 ++ l2) = true <->
  integers_only l1 = true /\ integers_only l2 = true.
Proof.
  unfold integers_only. rewrite forallb_app. apply andb_true_iff.
Qed.

Lemma integer_on_top (l : list value) (x : value) :
  integers_only (l ++ [x]) = true ->
  integers_only l = true /\ exists a : Z, x = VInt a.
Proof.
  intros H. apply integers_only_app in H. destruct H as [Hl Hx].
  split; [exact Hl|]. destruct x as [a|]; [exists a; reflexivity|discriminate].
Qed.

Lemma integers_on_top (l : list value) (y x : value) :
  integers_only (l ++ [y; x]) = true ->
  integers_only l = true /\ exists a b : Z, x = VInt a /\ y = VInt b.
Proof.
  intros H. apply integers_only_app in H. destruct H as [Hl Hyx].
  split; [exact Hl|].
  destruct y as [b|]; [|discriminate]. destruct x as [a|]; [|discriminate].
  exists a, b. split; reflexivity.
Qed.

Lemma printable_top (l : list value) (x : value) (c : Z) :
  printable_stack (Stack.mk (l ++ [x]) c) = true ->
  printable_stack (Stack.mk l c) = true /\ printable x = true.
Proof.
  rewrite printable_stack_app. intros H. apply andb_true_iff in H.
  destruct H as [Hl Hx]. split; [exact Hl|].
  unfold printable_stack in Hx. simpl in Hx. rewrite andb_true_r in Hx.
  exact Hx.
Qed.

Lemma printable_pushed (l : list value) (x : value) (c : Z) :
  printable_stack (Stack.mk l c) = true -> printable x = true ->
  printable_stack (Stack.mk (l ++ [x]) c) = true.
Proof.
  intros Hl Hx. rewrite printable_stack_app, Hl.
  unfold printable_stack. simpl. rewrite Hx. reflexivity.
Qed.

(** A push of an integer on a stack of integers leaves a stack of
    integers, or raises the ValueError of [str]; under a condition b that
    makes the stack and the integer printable it returns, and leaves a
    printable stack. *)
Lemma push_result (c lim : Z) (prog : list Instruction) (pc : Z)
  (out : list line) (l : list value) (n : Z) (b : bool) :
  integers_only l = true ->
  (b = true ->
   printable_stack (Stack.mk l c) = true /\ printable (VInt n) = true) ->
  (exists (l' : list value) (out' : list line),
      stack_push (VInt n) (mk (Stack.mk l c) lim prog pc out)
      = Ok (tt, mk (Stack.mk l' c) lim prog pc out')
      /\ integers_only l' = true
      /\ (b = true -> printable_stack (Stack.mk l' c) = true))
  \/ (stack_push (VInt n) (mk (Stack.mk l c) lim prog pc out)
      = Raise DigitsValueError
      /\ b = false).
Proof.
  intros Hl Hb.
  destruct (Z_le_gt_dec (Z.of_nat (List.length l) + 1) c) as [Hroom|Hfull].
  - rewrite stack_push_room by exact Hroom. left.
    eexists. eexists. split; [reflexivity|]. split.
    + apply integers_only_app. split; [exact Hl | reflexivity].
    + intros Hbt. destruct (Hb Hbt) as [Hp Hn].
      exact (printable_pushed _ _ _ Hp Hn).
  - rewrite stack_push_full by lia.
    destruct (printable (VInt n)) eqn:Hn.
    + left. eexists. eexists. split; [reflexivity|]. split; [exact Hl|].
      intros Hbt. apply (Hb Hbt).
    + right. split; [reflexivity|].
      destruct b; [|reflexivity]. destruct (Hb eq_refl) as [_ H]. discriminate H.
Qed.

(** The two parts of the condition under which nothing is raised. *)
Ltac split_condition H Hp Hs :=
  apply andb_true_iff in H; destruct H as [Hp Hs];
  unfold short_instruction in Hs; cbn [instruction_name instruction_value] in Hs.

(** A method other than the branches, called on a stack of integers,
    leaves a stack of integers or raises the ValueError of [str]; nothing
    else of the machine changes but what is printed.  If the stack is
    printable, the method is neither add nor mpy and the value of the
    instruction is printable, the method returns and leaves a printable
    stack. *)
Lemma plain_call (i : Instruction) (c lim : Z) (prog : list Instruction)
  (pc : Z) (out : list line) (l : list value) :
  plain_instruction i = true ->
  integers_only l = true ->
  (exists (l' : list value) (out' : list line),
      call_method i (mk (Stack.mk l c) lim prog pc out)
      = Ok (tt, mk (Stack.mk l' c) lim prog pc out')
      /\ integers_only l' = true
      /\ (printable_stack (Stack.mk l c) && short_instruction i = true ->
          printable_stack (Stack.mk l' c) = true))
  \/ (call_method i (mk (Stack.mk l c) lim prog pc out)
      = Raise DigitsValueError
      /\ printable_stack (Stack.mk l c) && short_instruction i = false).
Proof.
  intros Hplain Hl. destruct i as [op v]. unfold plain_instruction in Hplain.
  cbn [instruction_name instruction_value] in Hplain.
  assert (Hunder :
    Z.of_nat (List.length l) < required_size op ->
    (exists (l' : list value) (out' : list line),
        call_method (mkInstruction op v) (mk (Stack.mk l c) lim prog pc out)
        = Ok (tt, mk (Stack.mk l' c) lim prog pc out')
        /\ integers_only l' = true
        /\ (printable_stack (Stack.mk l c)
            && short_instruction (mkInstruction op v) = true ->
            printable_stack (Stack.mk l' c) = true))
    \/ (call_method (mkInstruction op v) (mk (Stack.mk l c) lim prog pc out)
        = Raise DigitsValueError
        /\ printable_stack (Stack.mk l c)
           && short_instruction (mkInstruction op v) = false)).
  { intros Hshort. rewrite underflow_returns by exact Hshort. left.
    exists l, out. split; [reflexivity|]. split; [exact Hl|].
    intros H. apply andb_true_iff in H. apply H. }
  unfold call_method in *. cbn [instruction_name instruction_value] in *.
  destruct op; try discriminate Hplain.
  - (* add *)
    destruct (last_two_cases l) as [Hshort|(l0 & y & x & ->)];
      [apply Hunder; exact Hshort|].
    destruct (integers_on_top _ _ _ Hl) as (Hl0 & a & b & -> & ->).
    unfold add. pops_two. cbn [py_add lift]. apply push_result; [exact Hl0|].
    intros H. split_condition H Hp Hs. discriminate Hs.
  - (* negate *)
    destruct (last_cases l) as [->|(l0 & x & ->)];
      [apply Hunder; simpl; lia|].
    destruct (integer_on_top _ _ Hl) as (Hl0 & a & ->).
    unfold negate. pops_one. cbn [py_mul lift]. apply push_result; [exact Hl0|].
    intros H. split_condition H Hp Hs.
    destruct (printable_top _ _ _ Hp) as [Hp0 Ha]. split; [exact Hp0|].
    replace (a * -1) with (- a) by lia. rewrite printable_opp. exact Ha.
  - (* equal *)
    destruct (last_two_cases l) as [Hshort|(l0 & y & x & ->)];
      [apply Hunder; exact Hshort|].
    destruct (integers_on_top _ _ _ Hl) as (Hl0 & a & b & -> & ->).
    unfold equal. pops_two.
    destruct (py_eq (VInt a) (VInt b)); (apply push_result; [exact Hl0|]);
      intros H; split_condition H Hp Hs; rewrite ?two_on_top in Hp;
      destruct (printable_top _ _ _ Hp) as [Hp1 _];
      destruct (printable_top _ _ _ Hp1) as [Hp0 _];
      (split; [exact Hp0 | reflexivity]).
  - (* zero *)
    unfold zero. apply push_result; [exact Hl|].
    intros H. split_condition H Hp Hs. split; [exact Hp | reflexivity].
  - (* one *)
    unfold one. apply push_result; [exact Hl|].
    intros H. split_condition H Hp Hs. split; [exact Hp | reflexivity].
  - (* loadcon *)
    destruct v as [n|]; [|discriminate Hplain].
    unfold loadcon. apply push_result; [exact Hl|].
    intros H. split_condition H Hp Hs. split; [exact Hp | exact Hs].
  - (* dup *)
    destruct (last_cases l) as [->|(l0 & x & ->)];
      [apply Hunder; simpl; lia|].
    destruct (integer_on_top _ _ Hl) as (Hl0 & a & ->).
    unfold dup. pops_one. unfold bind.
    set (b := printable_stack (Stack.mk (l0 ++ [VInt a]) c)
              && short_instruction (mkInstruction Op.dup v)).
    assert (Hb : b = true ->
                 printable_stack (Stack.mk l0 c) = true
                 /\ printable (VInt a) = true).
    { intros H. unfold b in H. split_condition H Hp Hs.
      exact (printable_top _ _ _ Hp). }
    destruct (push_result c lim prog pc out l0 a b Hl0 Hb)
      as [(l1 & out1 & -> & Hl1 & Hp1)|[-> Hfalse]];
      [|right; split; [reflexivity | exact Hfalse]].
    apply push_result; [exact Hl1|].
    intros H. split; [exact (Hp1 H) | apply (Hb H)].
  - (* mpy *)
    destruct (last_two_cases l) as [Hshort|(l0 & y & x & ->)];
      [apply Hunder; exact Hshort|].
    destruct (integers_on_top _ _ _ Hl) as (Hl0 & a & b & -> & ->).
    unfold mpy. pops_two. cbn [py_mul lift]. apply push_result; [exact Hl0|].
    intros H. split_condition H Hp Hs. discriminate Hs.
  - (* write *)
    destruct (last_cases l) as [->|(l0 & x & ->)];
      [apply Hunder; simpl; lia|].
    destruct (integer_on_top _ _ Hl) as (Hl0 & a & ->).
    rewrite write_top. destruct (printable (VInt a)) eqn:Ha.
    + left. eexists. eexists. split; [reflexivity|]. split; [exact Hl0|].
      intros H. split_condition H Hp Hs. apply (printable_top _ _ _ Hp).
    + right. split; [reflexivity|].
      destruct (printable_stack (Stack.mk (l0 ++ [VInt a]) c)) eqn:Hp;
        [|reflexivity].
      destruct (printable_top _ _ _ Hp) as [_ H]. rewrite H in Ha.
      discriminate Ha.
  - (* swap *)
    destruct (last_two_cases l) as [Hshort|(l0 & y & x & ->)];
      [apply Hunder; exact Hshort|].
    destruct (integers_on_top _ _ _ Hl) as (Hl0 & a & b0 & -> & ->).
    unfold swap. pops_two. unfold bind.
    set (b := printable_stack (Stack.mk ((l0 ++ [VInt b0]) ++ [VInt a]) c)
              && short_instruction (mkInstruction Op.swap v)).
    assert (Hb : b = true ->
                 printable_stack (Stack.mk l0 c) = true
                 /\ printable (VInt a) = true /\ printable (VInt b0) = true).
    { intros H. unfold b in H. split_condition H Hp Hs.
      destruct (printable_top _ _ _ Hp) as [Hp1 Ha].
      destruct (printable_top _ _ _ Hp1) as [Hp0 Hb0]. auto. }
    destruct (push_result c lim prog pc out l0 a b Hl0)
      as [(l1 & out1 & -> & Hl1 & Hp1)|[-> Hfalse]];
      [intros H; split; apply (Hb H) | |right; split; [reflexivity | exact Hfalse]].
    apply push_result; [exact Hl1|].
    intros H. split; [exact (Hp1 H) | apply (Hb H)].
  - (* less *)
    destruct (last_two_cases l) as [Hshort|(l0 & y & x & ->)];
      [apply Hunder; exact Hshort|].
    destruct (integers_on_top _ _ _ Hl) as (Hl0 & a & b & -> & ->).
    unfold less. pops_two. cbn [py_lt lift].
    destruct (b <? a); (apply push_result; [exact Hl0|]);
      intros H; split_condition H Hp Hs; rewrite ?two_on_top in Hp;
      destruct (printable_top _ _ _ Hp) as [Hp1 _];
      destruct (printable_top _ _ _ Hp1) as [Hp0 _];
      (split; [exact Hp0 | reflexivity]).
Qed.

End StraightLine.

(** ** Whole runs *)

Section Runs.

Import StackMachine.


Lemma iteration_breaks (m : t) :
  Z.of_nat (List.length (instructions m)) <= program_counter m ->
  iteration m = Ok None.
Proof.
  intros Hpc. unfold iteration, fetch, bind, get_program_counter.
  destruct (Z.gtb_spec (program_counter m)
              (Z.of_nat (List.length (instructions m)) - 1));
    [reflexivity | lia].
Qed.







Lemma run_off_the_end_witness :
  iteration (mk (Stack.mk [VInt 1] 2) 2 skip_program 5 []) = Ok None
  /\ forall passes : nat,
       run (S passes) (mk (Stack.mk [VInt 1] 2) 2 skip_program 5 [])
       = Finished (mk (Stack.mk [VInt 1] 2) 2 skip_program 5 []).
Proof.
  apply (run_off_the_end (mk (Stack.mk [VInt 1] 2) 2 skip_program 5 [])).
  vm_compute. discriminate.
Defined.

End Runs.

(** ** Two programs with branches *)

(** One pass of the loop on a machine whose program and program counter
    are known: fetch instruction [i], select its method. *)
Ltac one_pass i :=
  rewrite (iteration_fetched i) by reflexivity;
  unfold StackMachine.call_method; cbn [instruction_name instruction_value].

(** The stack holds values known to be printable. *)
Ltac shows :=
  unfold StackMachine.printable_stack;
  cbn [StackMachine.value_stack Stack.stack_elements app forallb];
  repeat match goal with
         | H : printable _ = true |- _ => rewrite H
         end;
  reflexivity.

(** The display and the increment that end the pass. *)
Ltac closes :=
  cbv beta iota;
  rewrite end_of_pass_ok by shows;
  unfold StackMachine.close_pass;
  cbn [StackMachine.value_stack StackMachine.size_limit
       StackMachine.instructions StackMachine.program_counter
       StackMachine.stdout Stack.stack_elements].

Ltac fits := simpl List.length; lia.

Section Programs.

Import StackMachine.

Lemma absolute_fn_of_negative (c n : Z) :
  3 <= c -> n < 0 -> printable (VInt n) = true ->
  exists out : list line,
    run 11 (mk (Stack.mk [] c) c (absolute_fn n) 0 [])
    = Finished (mk (Stack.mk [] c) c (absolute_fn n) 10 out)
    /\ written out = [VInt (- n)].
Proof.
  intros Hc Hn Hstr.
  assert (Hlt : (n <? 0) = true) by (apply Z.ltb_lt; exact Hn).
  assert (Hopp : printable (VInt (-1 * n)) = true).
  { replace (-1 * n) with (- n) by lia. rewrite printable_opp. exact Hstr. }
  eexists. unfold run.
  one_pass (mkInstruction Op.loadcon (VInt n)).
  unfold loadcon. rewrite stack_push_room by fits. closes.
  one_pass (mkInstruction Op.dup VNone).
  rewrite (dup_top c c (absolute_fn n) _ _ [] (VInt n)) by fits. closes.
  one_pass (mkInstruction Op.zero VNone).
  unfold zero. rewrite stack_push_room by fits. closes.
  one_pass (mkInstruction Op.less VNone).
  rewrite (less_integers c c (absolute_fn n) _ _ [VInt n] 0 n) by fits.
  rewrite Hlt. closes.
  one_pass (mkInstruction Op.loadcon (VInt 3)).
  unfold loadcon. rewrite stack_push_room by fits. closes.
  one_pass (mkInstruction Op.br_false VNone).
  rewrite (br_false_top c c (absolute_fn n) _ _ [VInt n] (VInt 1) 3).
  cbn [py_eq Z.eqb Pos.eqb]. closes.
  one_pass (mkInstruction Op.one VNone).
  unfold one. rewrite stack_push_room by fits. closes.
  one_pass (mkInstruction Op.negate VNone).
  rewrite (negate_integer c c (absolute_fn n) _ _ [VInt n] 1) by fits. closes.
  one_pass (mkInstruction Op.mpy VNone).
  rewrite (mpy_integers c c (absolute_fn n) _ _ [] (-1) n) by fits. closes.
  one_pass (mkInstruction Op.write VNone).
  rewrite (write_top c c (absolute_fn n) _ _ [] (VInt (-1 * n))), Hopp.
  closes.
  rewrite iteration_breaks by (vm_compute; discriminate).
  split; [reflexivity|].
  cbn [written app]. replace (-1 * n) with (- n) by lia. reflexivity.
Qed.

Lemma absolute_fn_of_nonnegative (c n : Z) :
  3 <= c -> 0 <= n -> printable (VInt n) = true ->
  exists out : list line,
    run 8 (mk (Stack.mk [] c) c (absolute_fn n) 0 [])
    = Finished (mk (Stack.mk [] c) c (absolute_fn n) 10 out)
    /\ written out = [VInt n].
Proof.
  intros Hc Hn Hstr.
  assert (Hlt : (n <? 0) = false) by (apply Z.ltb_ge; exact Hn).
  eexists. unfold run.
  one_pass (mkInstruction Op.loadcon (VInt n)).
  unfold loadcon. rewrite stack_push_room by fits. closes.
  one_pass (mkInstruction Op.dup VNone).
  rewrite (dup_top c c (absolute_fn n) _ _ [] (VInt n)) by fits. closes.
  one_pass (mkInstruction Op.zero VNone).
  unfold zero. rewrite stack_push_room by fits. closes.
  one_pass (mkInstruction Op.less VNone).
  rewrite (less_integers c c (absolute_fn n) _ _ [VInt n] 0 n) by fits.
  rewrite Hlt. closes.
  one_pass (mkInstruction Op.loadcon (VInt 3)).
  unfold loadcon. rewrite stack_push_room by fits. closes.
  one_pass (mkInstruction Op.br_false VNone).
  rewrite (br_false_top c c (absolute_fn n) _ _ [VInt n] (VInt 0) 3).
  cbn [py_eq Z.eqb]. closes.
  one_pass (mkInstruction Op.write VNone).
  rewrite (write_top c c (absolute_fn n) _ _ [] (VInt n)), Hstr. closes.
  rewrite iteration_breaks by (vm_compute; discriminate).
  split; reflexivity.
Qed.

Lemma absolute_fn_of_long (c n : Z) :
  3 <= c -> printable (VInt n) = false ->
  run 1 (mk (Stack.mk [] c) c (absolute_fn n) 0 []) = Raised DigitsValueError.
Proof.
  intros Hc Hstr. cbn [run].
  one_pass (mkInstruction Op.loadcon (VInt n)).
  unfold loadcon. rewrite stack_push_room by fits. cbv beta iota.
  unfold end_of_pass, printable_stack.
  cbn [value_stack Stack.stack_elements app forallb]. rewrite Hstr.
  reflexivity.
Qed.

(** The program of [main]'s comment computes the absolute value: for every
    integer n that [str] can print (at most 4300 digits), on a machine
    with a stack size of 3 or more, the run of [loadcon n, dup, zero, less,
    loadcon 3, br_false, one, negate, mpy, write] returns, has written
    exactly |n|, and leaves the stack empty.  The loop is left in its 8th
    pass when n is not negative (the br_false jumps over one, negate, mpy)
    and in its 11th when it is.  For a longer n the first pass, which
    displays n, raises the ValueError of [str]. *)
Theorem absolute_fn_writes_the_absolute_value (stack_size n : Z) :
  3 <= stack_size ->
  exists m0 : t,
    init (absolute_fn n) stack_size = Ok m0
    /\ (printable (VInt n) = true ->
        (exists m : t,
            run (if n <? 0 then 11 else 8) m0 = Finished m
            /\ written (stdout m) = [VInt (Z.abs n)]
            /\ Stack.stack_elements (value_stack m) = [])
        /\ run_writes (absolute_fn n) stack_size [VInt (Z.abs n)])
    /\ (printable (VInt n) = false ->
        run 1 m0 = Raised DigitsValueError).
Proof.
  intros Hsize.
  assert (Hinit : init (absolute_fn n) stack_size
                  = Ok (mk (Stack.mk [] stack_size) stack_size (absolute_fn n) 0 [])).
  { unfold init, Stack.init. simpl List.length.
    destruct (Z.gtb_spec (Z.of_nat 0) stack_size); [simpl in *; lia | reflexivity]. }
  eexists. split; [exact Hinit|]. split.
  - intros Hstr. destruct (Z.ltb_spec n 0) as [Hneg|Hpos].
    + destruct (absolute_fn_of_negative stack_size n Hsize Hneg Hstr)
        as (out & Hrun & Hout).
      rewrite Z.abs_neq by lia. split.
      * eexists. split; [exact Hrun|]. split; [exact Hout | reflexivity].
      * eexists. exists 11%nat. eexists.
        split; [exact Hinit|]. split; [exact Hrun | exact Hout].
    + destruct (absolute_fn_of_nonnegative stack_size n Hsize Hpos Hstr)
        as (out & Hrun & Hout).
      rewrite Z.abs_eq by lia. split.
      * eexists. split; [exact Hrun|]. split; [exact Hout | reflexivity].
      * eexists. exists 8%nat. eexists.
        split; [exact Hinit|]. split; [exact Hrun | exact Hout].
  - intros Hstr. exact (absolute_fn_of_long stack_size n Hsize Hstr).
Qed.

Lemma absolute_fn_writes_the_absolute_value_witness :
  run_writes (absolute_fn (-7)) 10 [VInt 7].
Proof.
  destruct (absolute_fn_writes_the_absolute_value 10 (-7))
    as (m0 & _ & Hshort & _).
  - vm_compute. discriminate.
  - apply Hshort. reflexivity.
Defined.

Lemma loop_program_goes_round (c lim : Z) (passes : nat) :
  1 <= c ->
  forall out : list line,
    (exists m : t,
        run passes (mk (Stack.mk [] c) lim loop_program 0 out) = StillRunning m)
    /\ (exists m : t,
           run passes (mk (Stack.mk [VInt (-2)] c) lim loop_program 1 out)
           = StillRunning m).
Proof.
  intros Hc. induction passes as [|passes IH]; intros out.
  - split; eexists; reflexivity.
  - split.
    + cbn [run]. one_pass (mkInstruction Op.loadcon (VInt (-2))).
      unfold loadcon. rewrite stack_push_room by fits. closes.
      apply IH.
    + cbn [run]. one_pass (mkInstruction Op.br VNone).
      rewrite (br_top c lim loop_program _ _ [] (-2)). closes.
      apply IH.
Qed.

(** The loop has no bound of its own: on [loadcon -2, br] the br goes back
    to the loadcon each time, and on a machine with a stack size of 1 or
    more the run has neither returned nor raised after any number of
    passes. *)
Theorem loop_program_never_returns (stack_size : Z) (passes : nat) :
  1 <= stack_size ->
  exists m0 m : t,
    init loop_program stack_size = Ok m0
    /\ run passes m0 = StillRunning m.
Proof.
  intros Hsize.
  destruct (loop_program_goes_round stack_size stack_size passes Hsize [])
    as [(m & Hrun) _].
  eexists. exists m. split; [|exact Hrun].
  unfold init, Stack.init. simpl List.length.
  destruct (Z.gtb_spec (Z.of_nat 0) stack_size); [simpl in *; lia | reflexivity].
Qed.

Lemma loop_program_never_returns_witness :
  exists m0 m : t,
    init loop_program 10 = Ok m0 /\ run 100 m0 = StillRunning m.
Proof.
  apply (loop_program_never_returns 10 100). vm_compute. discriminate.
Defined.

End Programs.

(** ** Instructions and their conversion from text *)

Open Scope string_scope.

Lemma opcode_of_name_sound (name : string) (op : Op.opcode) :
  opcode_of_name name = Some op -> opcode_name op = name.
Proof.
  unfold opcode_of_name. intros H. apply find_some in H.
  destruct H as [_ H]. apply String.eqb_eq in H. symmetry. exact H.
Qed.

Lemma only_loadcon_contains_loadcon (name : string) :
  In name INSTRUCTIONS -> str_contains "loadcon" name = true ->
  name = "loadcon".
Proof.
  intros Hin. unfold INSTRUCTIONS in Hin. simpl in Hin.
  repeat (destruct Hin as [<- | Hin];
          [vm_compute; first [reflexivity | discriminate]|]).
  contradiction.
Qed.

Lemma constructor_gives_back (name : string) (v : value) (i : Instruction) :
  Instruction_init name v = Ok i ->
  get_instruction_name i = name
  /\ get_instruction_value i = v
  /\ In name INSTRUCTIONS
  /\ (v <> VNone -> name = "loadcon").
Proof.
  unfold Instruction_init.
  destruct (existsb (String.eqb name) INSTRUCTIONS) eqn:Hmem;
    [|discriminate]. cbn [negb].
  apply INSTRUCTIONS_spec in Hmem.
  destruct (opcode_of_name name) as [op|] eqn:Hop; [|discriminate].
  destruct (negb (str_contains "loadcon" name) && negb (is_None v)) eqn:Htest;
    [discriminate|].
  intros H. injection H as <-.
  unfold get_instruction_name, get_instruction_value. simpl.
  split; [exact (opcode_of_name_sound _ _ Hop)|]. split; [reflexivity|].
  split; [exact Hmem|]. intros Hv.
  apply andb_false_iff in Htest. destruct Htest as [Htest|Htest].
  - apply negb_false_iff in Htest.
    exact (only_loadcon_contains_loadcon name Hmem Htest).
  - destruct v; [discriminate Htest | congruence].
Qed.

Lemma constructor_returns (name : string) (v : value) :
  In name INSTRUCTIONS -> v = VNone \/ name = "loadcon" ->
  exists i : Instruction, Instruction_init name v = Ok i.
Proof.
  intros Hin Hcase. unfold Instruction_init.
  rewrite (proj1 (INSTRUCTIONS_spec name) Hin). cbn [negb].
  destruct (opcode_of_member name Hin) as (op & -> & _).
  destruct Hcase as [-> | ->].
  - rewrite andb_false_r. eexists. reflexivity.
  - eexists. reflexivity.
Qed.

(** The constructor of Instruction returns exactly when the name is one of
    INSTRUCTIONS and either no value is given or the name is loadcon; the
    instruction returned then gives back, through its getters, the name
    and the value it was made with. *)
Theorem constructor_accepts_exactly (name : string) (v : value) :
  (forall i : Instruction,
      Instruction_init name v = Ok i ->
      get_instruction_name i = name
      /\ get_instruction_value i = v
      /\ In name INSTRUCTIONS
      /\ (v <> VNone -> name = "loadcon"))
  /\ (In name INSTRUCTIONS -> v = VNone \/ name = "loadcon" ->
      exists i : Instruction, Instruction_init name v = Ok i).
Proof.
  split.
  - intros i. apply constructor_gives_back.
  - apply constructor_returns.
Qed.

Lemma constructor_accepts_exactly_witness :
  get_instruction_name (mkInstruction Op.loadcon (VInt 7)) = "loadcon"
  /\ exists i : Instruction, Instruction_init "write" VNone = Ok i.
Proof.
  destruct (constructor_accepts_exactly "loadcon" (VInt 7)) as [Hback _].
  destruct (constructor_accepts_exactly "write" VNone) as [_ Hmake].
  split.
  - destruct (Hback (mkInstruction Op.loadcon (VInt 7)) eq_refl) as (Hname & _).
    exact Hname.
  - apply Hmake.
    + simpl. tauto.
    + left. reflexivity.
Defined.

Lemma split_space_nonempty (s : string) : split_space s <> [].
Proof.
  destruct s as [|ch rest]; simpl; [discriminate|].
  destruct (Ascii.eqb ch " "); [discriminate|].
  destruct (split_space rest); discriminate.
Qed.

(** The pieces are one more than the spaces. *)
Lemma split_space_length (s : string) :
  List.length (split_space s) = S (spaces s).
Proof.
  induction s as [|ch rest IH]; [reflexivity|]. simpl.
  destruct (Ascii.eqb ch " "); simpl; [rewrite IH; reflexivity|].
  destruct (split_space rest) as [|piece pieces] eqn:E; simpl in *; lia.
Qed.

Lemma accepted_with_integer (name : string) (n : Z) (i : Instruction) :
  Instruction_init name (VInt n) = Ok i ->
  instruction_name i = Op.loadcon /\ instruction_value i = VInt n.
Proof.
  intros H.
  destruct (constructor_gives_back name (VInt n) i H)
    as (Hname & Hvalue & _ & Hload).
  split; [|exact Hvalue].
  assert (Hl : name = "loadcon") by (apply Hload; discriminate).
  rewrite Hl in H. vm_compute in H. injection H as <-. reflexivity.
Qed.

Lemma accepted_without_value (name : string) (i : Instruction) :
  Instruction_init name VNone = Ok i -> instruction_value i = VNone.
Proof.
  intros H.
  destruct (constructor_gives_back name VNone i H) as (_ & Hvalue & _).
  exact Hvalue.
Qed.

Lemma convert_entry_made_from (lower : string -> string)
  (int : string -> option Z) (instruction : string) (i : Instruction) :
  convert_entry lower int instruction = Converted i ->
  made_from instruction i.
Proof.
  unfold convert_entry, made_from.
  pose proof (split_space_length instruction) as Hlen.
  destruct (split_space instruction) as [|first [|second [|third more]]];
    simpl in Hlen.
  - discriminate Hlen.
  - intros H. right. split; [lia|].
    destruct (Instruction_init (lower instruction) VNone) as [j|e] eqn:E;
      [|discriminate].
    injection H as <-. exact (accepted_without_value _ _ E).
  - intros H. left. split; [lia|].
    destruct (int second) as [n|]; [|discriminate].
    destruct (Instruction_init (lower first) (VInt n)) as [j|e] eqn:E;
      [|discriminate].
    injection H as <-. destruct (accepted_with_integer _ _ _ E) as [Hn Hv].
    split; [exact Hn|]. exists n. exact Hv.
  - intros H. right. split; [lia|].
    destruct (Instruction_init (lower instruction) VNone) as [j|e] eqn:E;
      [|discriminate].
    injection H as <-. exact (accepted_without_value _ _ E).
Qed.

(** Whatever [str.lower] and [int] do: when convert_list_to_instructions
    returns, it returns one instruction for each entry, in order; an entry
    with exactly one space has become a loadcon carrying an integer, and
    every other entry (no space, or two and more) an instruction without
    a value.  So a value is only ever read from an entry of two pieces. *)
Theorem converted_entry_by_entry (lower : string -> string)
  (int : string -> option Z) (instructions : list string) :
  forall conv_instructions : list Instruction,
    convert_list_to_instructions lower int instructions
    = Converted conv_instructions ->
    Forall2 made_from instructions conv_instructions.
Proof.
  induction instructions as [|instruction rest IH]; intros conv H.
  - simpl in H. injection H as <-. constructor.
  - simpl in H.
    destruct (convert_entry lower int instruction) as [i|e|s] eqn:Hone;
      try discriminate.
    destruct (convert_list_to_instructions lower int rest) as [others|e|s];
      try discriminate.
    injection H as <-. constructor.
    + exact (convert_entry_made_from _ _ _ _ Hone).
    + apply IH. reflexivity.
Qed.

Lemma converted_entry_by_entry_witness :
  Forall2 made_from ["loadcon 2"; "negate"]
    [mkInstruction Op.loadcon (VInt 2); mkInstruction Op.negate VNone].
Proof.
  apply (converted_entry_by_entry (fun s => s) (fun _ => Some 2)
           ["loadcon 2"; "negate"]).
  reflexivity.
Defined.

(** *** Printing an instruction and reading it back *)

Lemma split_space_single (s : string) :
  spaces s = 0%nat -> split_space s = [s].
Proof.
  induction s as [|ch rest IH]; [reflexivity|]. simpl.
  destruct (Ascii.eqb ch " "); [discriminate|].
  intros Hrest. rewrite (IH Hrest). reflexivity.
Qed.

Lemma split_space_at_space (a b : string) :
  spaces a = 0%nat ->
  split_space (a ++ String " " b) = a :: split_space b.
Proof.
  induction a as [|ch rest IH]; [reflexivity|]. simpl.
  destruct (Ascii.eqb ch " "); [discriminate|].
  intros Hrest. rewrite (IH Hrest). reflexivity.
Qed.

Lemma names_without_space (op : Op.opcode) : spaces (opcode_name op) = 0%nat.
Proof. destruct op; reflexivity. Qed.

Lemma name_of_opcode (op : Op.opcode) :
  opcode_of_name (opcode_name op) = Some op.
Proof. destruct op; reflexivity. Qed.

Lemma constructor_on_name (op : Op.opcode) :
  Instruction_init (opcode_name op) VNone = Ok (mkInstruction op VNone).
Proof. destruct op; reflexivity. Qed.

(** An instruction printed by [__repr__] and read back as an entry of
    convert_list_to_instructions, given of the built-in functions only that
    lower leaves the (lower-case) name alone, that the text of the integer
    has no space and that int reads it back.  An instruction without a
    value, and a loadcon with an integer other than 0, come back as they
    were.  A loadcon with 0 is printed without its value, like a loadcon
    without a value, and comes back with the value None. *)
Theorem repr_read_back (lower : string -> string) (int : string -> option Z)
  (str : Z -> string) (op : Op.opcode) :
  lower (opcode_name op) = opcode_name op ->
  convert_entry lower int (Instruction_repr str (mkInstruction op VNone))
  = Converted (mkInstruction op VNone)
  /\ (op = Op.loadcon ->
      convert_entry lower int (Instruction_repr str (mkInstruction op (VInt 0)))
      = Converted (mkInstruction op VNone)
      /\ forall n : Z,
           n <> 0 -> spaces (str n) = 0%nat -> int (str n) = Some n ->
           convert_entry lower int
             (Instruction_repr str (mkInstruction op (VInt n)))
           = Converted (mkInstruction op (VInt n))).
Proof.
  intros Hlower.
  assert (Hbare : convert_entry lower int (opcode_name op)
                  = Converted (mkInstruction op VNone)).
  { unfold convert_entry.
    rewrite (split_space_single _ (names_without_space op)).
    rewrite Hlower, constructor_on_name. reflexivity. }
  split; [|intros ->; split].
  - unfold Instruction_repr, get_instruction_name. simpl.
    assert (E : forall s, (s ++ "")%string = s)
      by (induction s as [|ch s IH]; simpl; [|rewrite IH]; reflexivity).
    rewrite E. exact Hbare.
  - exact Hbare.
  - intros n Hn Hspace Hint.
    unfold Instruction_repr, get_instruction_name. simpl.
    destruct (Z.eqb_spec n 0) as [|_]; [contradiction|].
    unfold convert_entry.
    assert (Hsplit : split_space ("loadcon" ++ String " " (str n))
                     = ["loadcon"; str n]).
    { rewrite split_space_at_space by reflexivity.
      rewrite (split_space_single _ Hspace). reflexivity. }
    cbn [append] in Hsplit. rewrite Hsplit, Hint.
    change (lower "loadcon") with (lower (opcode_name Op.loadcon)).
    rewrite Hlower. reflexivity.
Qed.

Lemma repr_read_back_witness :
  convert_entry (fun s => s) (fun _ => Some 5)
    (Instruction_repr (fun _ => "5") (mkInstruction Op.loadcon (VInt 5)))
  = Converted (mkInstruction Op.loadcon (VInt 5)).
Proof.
  destruct (repr_read_back (fun s => s) (fun _ => Some 5) (fun _ => "5")
              Op.loadcon eq_refl) as (_ & Hloadcon).
  destruct (Hloadcon eq_refl) as (_ & Hvalue).
  apply (Hvalue 5).
  - discriminate.
  - reflexivity.
  - reflexivity.
Defined.

Close Scope string_scope.

(** ** Concrete instances of the properties of the methods *)

Section Instances.

Import StackMachine.

Lemma add_and_mpy_on_integers_witness :
  add (mk (Stack.mk [VInt 9; VInt 3; VInt 2] 3) 3 [] 0 [])
  = Ok (tt, mk (Stack.mk [VInt 9; VInt 5] 3) 3 [] 0 [])
  /\ mpy (mk (Stack.mk [VInt 9; VInt 3; VInt 2] 3) 3 [] 0 [])
     = Ok (tt, mk (Stack.mk [VInt 9; VInt 6] 3) 3 [] 0 []).
Proof.
  apply (add_and_mpy_on_integers 3 3 [] 0 [] [VInt 9] 2 3).
  vm_compute. discriminate.
Defined.

Lemma negate_is_an_involution_witness :
  negate (mk (Stack.mk [VInt 3] 1) 1 [] 0 [])
  = Ok (tt, mk (Stack.mk [VInt (-3)] 1) 1 [] 0 [])
  /\ bind negate (fun _ => negate) (mk (Stack.mk [VInt 3] 1) 1 [] 0 [])
     = Ok (tt, mk (Stack.mk [VInt 3] 1) 1 [] 0 []).
Proof.
  apply (negate_is_an_involution 1 1 [] 0 [] [] 3).
  vm_compute. discriminate.
Defined.

Lemma equal_and_less_push_one_or_zero_witness :
  equal (mk (Stack.mk [VInt 3; VInt 5] 2) 2 [] 0 [])
  = Ok (tt, mk (Stack.mk [VInt 0] 2) 2 [] 0 [])
  /\ less (mk (Stack.mk [VInt 3; VInt 5] 2) 2 [] 0 [])
     = Ok (tt, mk (Stack.mk [VInt 1] 2) 2 [] 0 []).
Proof.
  apply (equal_and_less_push_one_or_zero 2 2 [] 0 [] [] 5 3).
  vm_compute. discriminate.
Defined.

Lemma swap_is_an_involution_witness :
  swap (mk (Stack.mk [VInt 3; VNone] 2) 2 [] 0 [])
  = Ok (tt, mk (Stack.mk [VNone; VInt 3] 2) 2 [] 0 [])
  /\ bind swap (fun _ => swap) (mk (Stack.mk [VInt 3; VNone] 2) 2 [] 0 [])
     = Ok (tt, mk (Stack.mk [VInt 3; VNone] 2) 2 [] 0 []).
Proof.
  apply (swap_is_an_involution 2 2 [] 0 [] [] VNone (VInt 3)).
  vm_compute. discriminate.
Defined.

Lemma dup_with_room_witness :
  dup (mk (Stack.mk [VInt 5] 2) 2 [] 0 [])
  = Ok (tt, mk (Stack.mk [VInt 5; VInt 5] 2) 2 [] 0 []).
Proof.
  apply (dup_with_room 2 2 [] 0 [] [] (VInt 5)).
  vm_compute. discriminate.
Defined.


Lemma none_on_the_stack_witness :
  add (mk (Stack.mk [VInt 3; VNone] 2) 2 [] 0 []) = Raise TypeError
  /\ equal (mk (Stack.mk [VInt 3; VNone] 2) 2 [] 0 [])
     = Ok (tt, mk (Stack.mk [VInt 0] 2) 2 [] 0 []).
Proof.
  destruct (none_on_the_stack 2 2 [] 0 [] [] (VInt 3)) as (Hadd & Hrest).
  - vm_compute. discriminate.
  - split; [exact Hadd|]. apply Hrest.
Defined.

Lemma write_pops_and_prints_witness :
  write (mk (Stack.mk [VInt 5] 2) 2
            [mkInstruction Op.loadcon (VInt 5); mkInstruction Op.write VNone] 1
            [Displayed [VInt 5]])
  = Ok (tt, mk (Stack.mk [] 2) 2
               [mkInstruction Op.loadcon (VInt 5); mkInstruction Op.write VNone] 1
               [Displayed [VInt 5]; Written (VInt 5)]).
Proof.
  destruct (write_pops_and_prints 2 2
              [mkInstruction Op.loadcon (VInt 5); mkInstruction Op.write VNone] 1
              [Displayed [VInt 5]] [] (VInt 5)) as (Hrun & _).
  apply (Hrun [mkInstruction Op.loadcon (VInt 5); mkInstruction Op.write VNone] 2
           (mk (Stack.mk [] 2) 2
               [mkInstruction Op.loadcon (VInt 5); mkInstruction Op.write VNone]
               0 []) 1%nat).
  - reflexivity.
  - reflexivity.
Defined.

Lemma stack_never_exceeds_stack_size_witness :
  Stack.len (value_stack (mk (Stack.mk [VInt 1] 2) 2 skip_program 5
       [Displayed [VInt 1]; Displayed [VInt 2; VInt 1]; Displayed [VInt 1]]))
  <= 2.
Proof.
  apply (stack_never_exceeds_stack_size skip_program 2
           (mk (Stack.mk [] 2) 2 skip_program 0 [])
           (mk (Stack.mk [VInt 1] 2) 2 skip_program 5
               [Displayed [VInt 1]; Displayed [VInt 2; VInt 1];
                Displayed [VInt 1]])
           4).
  - reflexivity.
  - left. reflexivity.
Defined.

End Instances.

(** ** What a run can raise *)

Section Exceptions.

Import StackMachine.

Lemma plain_or_branch (i : Instruction) :
  carries_integer i = true ->
  plain_instruction i = true
  \/ instruction_name i = Op.br \/ instruction_name i = Op.br_false.
Proof.
  unfold plain_instruction, carries_integer. destruct i as [op v]. simpl.
  destruct op; simpl; auto.
Qed.

(** Any method, called for an instruction that carries an integer if it is
    a loadcon, on a stack of integers, leaves a stack of integers or
    raises the ValueError of [str]. *)
Lemma integer_call (i : Instruction) (c lim : Z) (prog : list Instruction)
  (pc : Z) (out : list line) (l : list value) :
  carries_integer i = true ->
  integers_only l = true ->
  (exists (l' : list value) (pc' : Z) (out' : list line),
      call_method i (mk (Stack.mk l c) lim prog pc out)
      = Ok (tt, mk (Stack.mk l' c) lim prog pc' out')
      /\ integers_only l' = true)
  \/ call_method i (mk (Stack.mk l c) lim prog pc out) = Raise DigitsValueError.
Proof.
  intros Hi Hl. destruct (plain_or_branch i Hi) as [Hplain|[Hbr|Hbr]].
  - destruct (plain_call i c lim prog pc out l Hplain Hl)
      as [(l' & out' & H & Hl' & _)|[H _]]; [left|right; exact H].
    exists l', pc, out'. split; assumption.
  - left. unfold call_method. rewrite Hbr.
    destruct (last_cases l) as [->|(l0 & x & ->)].
    + exists [], pc, out. split; reflexivity.
    + destruct (integer_on_top _ _ Hl) as (Hl0 & k & ->).
      rewrite br_top. exists l0, (pc + k), out. split; [reflexivity | exact Hl0].
  - left. destruct (last_two_cases l) as [Hshort|(l0 & y & x & ->)].
    + exists l, pc, out. split; [|exact Hl].
      apply underflow_returns. rewrite Hbr. exact Hshort.
    + unfold call_method. rewrite Hbr.
      destruct (integers_on_top _ _ _ Hl) as (Hl0 & k & b & -> & ->).
      rewrite br_false_top. eexists. eexists. eexists.
      split; [reflexivity | exact Hl0].
Qed.

Lemma fetch_raises_IndexError (m : t) (e : exn) :
  fetch m = Raise e -> e = IndexError.
Proof.
  unfold fetch, bind, get_program_counter, py_getitem. cbv zeta.
  destruct (negb _); [|discriminate].
  destruct (_ || _).
  - intros H. injection H as <-. reflexivity.
  - destruct (nth_error _ _); [discriminate|].
    intros H. injection H as <-. reflexivity.
Qed.

Lemma fetched_from_program (m m' : t) (i : Instruction) :
  fetch m = Ok (Some i, m') -> In i (instructions m).
Proof.
  unfold fetch, bind, get_program_counter, py_getitem. cbv zeta.
  destruct (negb _); [|discriminate].
  destruct (_ || _); [discriminate|].
  destruct (nth_error _ _) as [j|] eqn:E; [|discriminate].
  intros H. injection H as <- _. exact (nth_error_In _ _ E).
Qed.

Lemma integer_iteration (c lim : Z) (prog : list Instruction) (pc : Z)
  (out : list line) (l : list value) :
  integer_program prog = true ->
  integers_only l = true ->
  iteration (mk (Stack.mk l c) lim prog pc out) = Raise IndexError
  \/ iteration (mk (Stack.mk l c) lim prog pc out) = Raise DigitsValueError
  \/ iteration (mk (Stack.mk l c) lim prog pc out) = Ok None
  \/ exists (l' : list value) (pc' : Z) (out' : list line),
       iteration (mk (Stack.mk l c) lim prog pc out)
       = Ok (Some (mk (Stack.mk l' c) lim prog pc' out'))
       /\ integers_only l' = true.
Proof.
  intros Hprog Hl. unfold iteration.
  destruct (fetch (mk (Stack.mk l c) lim prog pc out)) as [[[i|] m1]|e] eqn:Hfetch.
  - pose proof (fetch_same _ _ _ Hfetch) as ->.
    assert (Hi : carries_integer i = true).
    { unfold integer_program in Hprog. rewrite forallb_forall in Hprog.
      apply Hprog. exact (fetched_from_program _ _ _ Hfetch). }
    rewrite execute_eq.
    destruct (integer_call i c lim prog pc out l Hi Hl)
      as [(l' & pc' & out' & -> & Hl')| ->];
      [|right; left; reflexivity].
    cbn [value_stack]. destruct (printable_stack (Stack.mk l' c)).
    + right. right. right. unfold close_pass.
      eexists. eexists. eexists. split; [reflexivity | exact Hl'].
    + right. left. reflexivity.
  - right. right. left. reflexivity.
  - left. rewrite (fetch_raises_IndexError _ _ Hfetch). reflexivity.
Qed.

Lemma integer_run (passes : nat) :
  forall (c lim : Z) (prog : list Instruction) (pc : Z) (out : list line)
         (l : list value) (e : exn),
    integer_program prog = true ->
    integers_only l = true ->
    run passes (mk (Stack.mk l c) lim prog pc out) = Raised e ->
    e = IndexError \/ e = DigitsValueError.
Proof.
  induction passes as [|passes IH]; intros c lim prog pc out l e Hprog Hl Hrun;
    [discriminate|].
  simpl in Hrun.
  destruct (integer_iteration c lim prog pc out l Hprog Hl)
    as [H|[H|[H|(l' & pc' & out' & H & Hl')]]]; rewrite H in Hrun.
  - injection Hrun as <-. left. reflexivity.
  - injection Hrun as <-. right. reflexivity.
  - discriminate.
  - exact (IH _ _ _ _ _ _ _ Hprog Hl' Hrun).
Qed.

(** A program whose loadcons all carry integers never makes the run raise
    TypeError, nor any exception of the constructors: however it
    branches, the only exceptions that can leave run are the IndexError of
    a fetch below the start of the program and the ValueError that [str]
    raises for an integer of more than 4300 digits. *)
Theorem integer_program_raises_no_TypeError (program : list Instruction)
  (stack_size : Z) (m0 : t) (passes : nat) (e : exn) :
  integer_program program = true ->
  init program stack_size = Ok m0 ->
  run passes m0 = Raised e ->
  e = IndexError \/ e = DigitsValueError.
Proof.
  intros Hprog Hinit Hrun. unfold init in Hinit.
  destruct (Stack.init stack_size []) as [s|e'] eqn:Hstack; [|discriminate].
  destruct (init_inv _ _ _ Hstack) as (Hels & Hcap & _).
  destruct s as [els cap]. simpl in Hels, Hcap. subst els cap.
  injection Hinit as <-.
  exact (integer_run passes stack_size stack_size program 0 [] [] e Hprog
           eq_refl Hrun).
Qed.

Lemma integer_program_raises_no_TypeError_witness :
  integer_program backward_program = true
  /\ run 5 (mk (Stack.mk [] 10) 10 backward_program 0 []) = Raised IndexError
  /\ (IndexError = IndexError \/ IndexError = DigitsValueError).
Proof.
  split; [reflexivity|]. split; [reflexivity|].
  apply (integer_program_raises_no_TypeError backward_program 10
           (mk (Stack.mk [] 10) 10 backward_program 0 []) 5 IndexError).
  - reflexivity.
  - reflexivity.
  - reflexivity.
Defined.

End Exceptions.
